(** * ControlEye: the display-state scheduler of [main.py]

    A shallow embedding of the scheduler core of [ScreenController]
    (stable keys, the schedule store, the saved-geometry tracker, blanking,
    restoring and the polling tick) and the properties it satisfies.

    Layout of the file:
    - Python values and library calls the code relies on;
    - the monitor record, the stable key and the schedule store;
    - the Win32/Tk interface and the state of [self];
    - the display operations and the scheduler tick;
    - a simulated desktop used to run the code on concrete inputs;
    - the theorems. *)

From Stdlib Require Import ZArith NArith List String Ascii Bool Lia DecimalString.
From Stdlib.Strings Require Byte.
From Stdlib Require DecimalPos.
Import ListNotations.
Open Scope string_scope.
Open Scope Z_scope.

Set Implicit Arguments.

(** ** Python values *)

(** The exceptions that the modelled calls raise.  All of them derive from
    [Exception], so both [except Exception] and a bare [except] catch them. *)
Inductive exn : Type :=
| ValueError
| OverflowError
| OSError
| AttributeError
| NoSectionError
| NoOptionError
| InterpolationError
| pywintypes_error
| TclError
| RuntimeError.

(** The result of a call that either returns or raises. *)
Inductive answer (A : Type) : Type :=
| Returns (a : A)
| Raises (e : exn).
Arguments Raises {A} e.

(** [str(n)] for a Python [int]. *)
Definition py_str (z : Z) : string := NilZero.string_of_int (Z.to_int z).

(** [str(b)] for a Python [bool]. *)
Definition py_str_bool (b : bool) : string := if b then "True" else "False".

(** [c.lower()] on one ASCII character. *)
Definition lower_ascii (c : ascii) : ascii :=
  let n := nat_of_ascii c in
  if andb (Nat.leb 65 n) (Nat.leb n 90) then ascii_of_nat (n + 32) else c.

(** [s.lower()] on ASCII text. *)
Fixpoint lower (s : string) : string :=
  match s with
  | EmptyString => EmptyString
  | String c r => String (lower_ascii c) (lower r)
  end.

(** [c in s] for one character. *)
Fixpoint contains (c : ascii) (s : string) : bool :=
  match s with
  | EmptyString => false
  | String c' r => orb (Ascii.eqb c' c) (contains c r)
  end.

(** [s.split(sep)] for a one-character separator. *)
Fixpoint split (sep : ascii) (s : string) : list string :=
  match s with
  | EmptyString => [EmptyString]
  | String c r =>
      if Ascii.eqb c sep then EmptyString :: split sep r
      else match split sep r with
           | [] => [String c EmptyString]
           | p :: ps => String c p :: ps
           end
  end.

Definition is_digit (c : ascii) : bool :=
  let n := nat_of_ascii c in andb (Nat.leb 48 n) (Nat.leb n 57).

Definition digit_value (c : ascii) : Z := Z.of_nat (nat_of_ascii c - 48).

(** The characters [str.strip()] removes among the ASCII ones. *)
Definition is_space (c : ascii) : bool :=
  let n := nat_of_ascii c in
  orb (Nat.eqb n 32) (orb (andb (Nat.leb 9 n) (Nat.leb n 13))
                          (andb (Nat.leb 28 n) (Nat.leb n 31))).

Fixpoint lstrip (s : string) : string :=
  match s with
  | String c r => if is_space c then lstrip r else s
  | EmptyString => EmptyString
  end.

Fixpoint rstrip (s : string) : string :=
  match s with
  | EmptyString => EmptyString
  | String c r =>
      match rstrip r with
      | EmptyString => if is_space c then EmptyString else String c EmptyString
      | r' => String c r'
      end
  end.

(** The digits of a decimal literal, most significant first; underscores
    are allowed singly between digits.  [after_digit] tells whether the
    previous character was a digit. *)
Fixpoint digits_value (acc : Z) (after_digit : bool) (s : string) : option Z :=
  match s with
  | EmptyString => if after_digit then Some acc else None
  | String c r =>
      if is_digit c then digits_value (10 * acc + digit_value c) true r
      else if andb (Ascii.eqb c "_") after_digit then digits_value acc false r
      else None
  end.

(** [int(s)] on ASCII text: surrounding white space, an optional sign,
    decimal digits.  [int] also takes the decimal digits and the white space
    of other scripts; the model answers every text outside ASCII with
    [ValueError], and nothing below is stated about such text. *)
Definition py_int (s : string) : answer Z :=
  let body := rstrip (lstrip s) in
  let parsed :=
    match body with
    | String "-" r => option_map Z.opp (digits_value 0 false r)
    | String "+" r => digits_value 0 false r
    | _ => digits_value 0 false body
    end in
  match parsed with
  | Some z => Returns z
  | None => Raises ValueError
  end.

(** ** Dictionaries

    A Python [dict] with string keys keeps its keys in insertion order and
    assigning to a present key keeps the key where it is. *)
Module Dict.

Definition t (V : Type) : Type := list (string * V).

Definition empty {V : Type} : t V := [].

Fixpoint get {V : Type} (d : t V) (k : string) : option V :=
  match d with
  | [] => None
  | (k', v) :: r => if String.eqb k' k then Some v else get r k
  end.

Definition mem {V : Type} (d : t V) (k : string) : bool :=
  match get d k with Some _ => true | None => false end.

Fixpoint set {V : Type} (d : t V) (k : string) (v : V) : t V :=
  match d with
  | [] => [(k, v)]
  | (k', v') :: r =>
      if String.eqb k' k then (k', v) :: r else (k', v') :: set r k v
  end.

Definition keys {V : Type} (d : t V) : list string := map fst d.

End Dict.

(** ** Monitors and the stable key *)

(** The dictionary built by [get_screen_info] for one monitor. *)
Module Monitor.
Record t : Type := {
  id : Z;
  name : string;
  width : Z;
  height : Z;
  x : Z;
  y : Z;
  is_primary : bool
}.
End Monitor.
Definition monitor : Type := Monitor.t.

(** [get_monitor_config_key]: [f"{name}_{width}x{height}"]. *)
Definition get_monitor_config_key (m : monitor) : string :=
  Monitor.name m ++ "_" ++ py_str (Monitor.width m) ++ "x" ++ py_str (Monitor.height m).

(** ** The schedule store: [configparser.ConfigParser] *)

(** The options of one section, name to raw text. *)
Definition options : Type := Dict.t string.

(** The parser's content: the [DEFAULT] section and the named sections. *)
Record ConfigParser : Type := {
  defaults : options;
  sections : Dict.t options
}.

(** [configparser.ConfigParser()] before anything is read. *)
Definition empty_config : ConfigParser :=
  {| defaults := Dict.empty; sections := Dict.empty |}.

Definition default_section : string := "DEFAULT".

Definition has_section (c : ConfigParser) (section : string) : bool :=
  Dict.mem (sections c) section.

(** [key in config]. *)
Definition config_contains (c : ConfigParser) (key : string) : bool :=
  orb (String.eqb key default_section) (has_section c key).

(** The section's options chained before the defaults, as [_unify_values]
    builds them; a section that does not exist raises. *)
Definition unify_values (c : ConfigParser) (section : string) : answer options :=
  match Dict.get (sections c) section with
  | Some d => Returns (d ++ defaults c)%list
  | None =>
      if String.eqb section default_section then Returns (defaults c)
      else Raises NoSectionError
  end.

(** The name between [%(] and [)s], and the text after it. *)
Fixpoint key_reference (s : string) : option (string * string) :=
  match s with
  | EmptyString => None
  | String ")" (String "s" r) => Some (EmptyString, r)
  | String ")" _ => None
  | String c r =>
      match key_reference r with
      | Some (k, rest) => Some (String c k, rest)
      | None => None
      end
  end.

(** [BasicInterpolation._interpolate_some]: [%%] stands for a percent sign,
    [%(name)s] for the value of option [name], expanded in turn at most
    [depth] levels deep; any other [%] is an error.  [n] bounds the number of
    characters still to scan. *)
Fixpoint interpolate_some (depth : nat) (map : options) (n : nat) (rest : string)
  : answer string :=
  match depth with
  | O => Raises InterpolationError
  | S depth' =>
      (fix scan (n : nat) (rest : string) : answer string :=
         match n with
         | O => Returns EmptyString
         | S n' =>
             match rest with
             | EmptyString => Returns EmptyString
             | String "%" (String "%" r) =>
                 match scan n' r with
                 | Returns t => Returns (String "%" t)
                 | Raises e => Raises e
                 end
             | String "%" (String "(" r) =>
                 match key_reference r with
                 | Some (EmptyString, _) | None => Raises InterpolationError
                 | Some (var, r') =>
                     match Dict.get map (lower var) with
                     | None => Raises InterpolationError
                     | Some v =>
                         let expanded :=
                           if contains "%" v
                           then interpolate_some depth' map (String.length v) v
                           else Returns v in
                         match expanded with
                         | Raises e => Raises e
                         | Returns t1 =>
                             match scan n' r' with
                             | Returns t2 => Returns (t1 ++ t2)
                             | Raises e => Raises e
                             end
                         end
                     end
                 end
             | String "%" _ => Raises InterpolationError
             | String c r =>
                 match scan n' r with
                 | Returns t => Returns (String c t)
                 | Raises e => Raises e
                 end
             end
         end) n rest
  end.

Definition MAX_INTERPOLATION_DEPTH : nat := 10.

(** [BasicInterpolation.before_get]. *)
Definition before_get (map : options) (value : string) : answer string :=
  interpolate_some MAX_INTERPOLATION_DEPTH map (String.length value) value.

(** [config.get(section, option, fallback=fb)]; [fallback = None] is the
    call without a fallback. *)
Definition config_get (c : ConfigParser) (section opt : string)
    (fallback : option string) : answer string :=
  match unify_values c section with
  | Raises e =>
      match fallback with Some fb => Returns fb | None => Raises e end
  | Returns d =>
      match Dict.get d (lower opt) with
      | None =>
          match fallback with
          | Some fb => Returns fb
          | None => Raises NoOptionError
          end
      | Some value => before_get d value
      end
  end.

(** [ConfigParser._convert_to_boolean]. *)
Definition convert_to_boolean (value : string) : answer bool :=
  let v := lower value in
  if existsb (String.eqb v) ["1"; "yes"; "true"; "on"] then Returns true
  else if existsb (String.eqb v) ["0"; "no"; "false"; "off"] then Returns false
  else Raises ValueError.

(** [config.getboolean(section, option, fallback=fb)]: the value is fetched
    without fallback and converted; only a missing section or option is
    answered with the fallback. *)
Definition config_getboolean (c : ConfigParser) (section opt : string)
    (fallback : bool) : answer bool :=
  match config_get c section opt None with
  | Returns value => convert_to_boolean value
  | Raises NoSectionError | Raises NoOptionError => Returns fallback
  | Raises e => Raises e
  end.

(** One monitor's auto-blank configuration as [load_monitor_config] returns
    it: the flag and the two times as ["H:M:S"] text. *)
Record ScheduleEntry : Type := {
  auto_enabled : bool;
  start_time : string;
  end_time : string
}.

(** The entry returned at the end of [load_monitor_config]. *)
Definition default_entry : ScheduleEntry :=
  {| auto_enabled := false; start_time := "17:0:0"; end_time := "7:0:0" |}.

(** The dictionary display inside the [try] of [load_monitor_config]; its
    three values are evaluated in order and the first exception leaves it. *)
Definition read_entry (c : ConfigParser) (key : string) : answer ScheduleEntry :=
  match config_getboolean c key "auto_enabled" false with
  | Raises e => Raises e
  | Returns en =>
      match config_get c key "start_time" (Some "22:00:00") with
      | Raises e => Raises e
      | Returns st =>
          match config_get c key "end_time" (Some "08:00:00") with
          | Raises e => Raises e
          | Returns en_t =>
              Returns {| auto_enabled := en; start_time := st; end_time := en_t |}
          end
      end
  end.

(** [load_monitor_config]. *)
Definition load_monitor_config (c : ConfigParser) (m : monitor)
  : answer ScheduleEntry :=
  let key := get_monitor_config_key m in
  if config_contains c key then
    match read_entry c key with
    | Returns e => Returns e
    | Raises _ => Returns default_entry
    end
  else Returns default_entry.

(** The three spin-box texts that [create_widgets] makes of a stored time:
    the parts of [text.split(':')], the missing ones replaced by
    [default_hour], ["00"] and ["00"]. *)
Definition time_parts (default_hour : string) (text : string)
  : string * string * string :=
  let parts := split ":" text in
  (nth 0 parts default_hour, nth 1 parts "00", nth 2 parts "00").

(** The time of day the tick reads back from such texts with [int]. *)
Definition time_of_day (default_hour : string) (text : string)
  : answer (Z * Z * Z) :=
  let '(h, m, s) := time_parts default_hour text in
  match py_int h, py_int m, py_int s with
  | Returns h', Returns m', Returns s' => Returns (h', m', s')
  | Raises e, _, _ | _, Raises e, _ | _, _, Raises e => Raises e
  end.

(** ** The blank window *)

(** Seconds since midnight, as the tick computes them. *)
Definition total_sec (hour minute second : Z) : Z :=
  hour * 3600 + minute * 60 + second.

(** The window test of [check_auto_screen_off] on seconds since midnight. *)
Definition in_sleep_time (start_total_sec end_total_sec current_total_sec : Z)
  : bool :=
  if start_total_sec <=? end_total_sec
  then (start_total_sec <=? current_total_sec) && (current_total_sec <=? end_total_sec)
  else (current_total_sec >=? start_total_sec) || (current_total_sec <=? end_total_sec).


(** ** The display API and the widgets *)

(** [PyDISPLAY_DEVICE], as far as the code reads it. *)
Record DISPLAY_DEVICE : Type := { DeviceName : string }.

(** [PyDEVMODE], as far as the code reads and writes it.  The two sizes are
    [DWORD]s, the position is a pair of [LONG]s. *)
Record DEVMODE : Type := {
  Position_x : Z;
  Position_y : Z;
  PelsWidth : N;
  PelsHeight : N;
  Fields : Z
}.

(** The second argument of [EnumDisplaySettings]. *)
Inductive iModeNum : Type :=
| ENUM_CURRENT_SETTINGS
| ENUM_REGISTRY_SETTINGS.

(** Constants of [win32con]. *)
Definition DM_POSITION : Z := 0x20.
Definition DM_PELSWIDTH : Z := 0x80000.
Definition DM_PELSHEIGHT : Z := 0x100000.
Definition DISP_CHANGE_SUCCESSFUL : Z := 0.
Definition CDS_UPDATEREGISTRY : Z := 1.

(** One value of [self.original_settings]: the mode a device had before
    it was blanked. *)
Module Saved.
Record t : Type := {
  width : N;
  height : N;
  position_x : Z;
  position_y : Z
}.
End Saved.
Definition SavedGeometry : Type := Saved.t.

(** The texts handed to [messagebox.showerror]. *)
Inductive message : Type :=
| DeviceNameNotFound (monitor_name : string)
| BlankFailedWithCode (result : Z)
| BlankFailed (e : exn).

(** A Tk [StringVar] as the tick reads it: [int(var.get())] yields an
    integer, or raises ([ValueError] on text that is no integer, [TclError]
    or [RuntimeError] when Tk refuses the access). *)
Inductive StringVar : Type :=
| TkVar (int_of_get : answer Z).

Definition int_get (v : StringVar) : answer Z :=
  match v with TkVar r => r end.

(** One entry of [self.preview_widgets], as far as the tick reads it.  A
    key that the dictionary lacks is [None], which is what [dict.get]
    answers for it. *)
Module Widget.
Record t : Type := {
  auto_enabled : option bool;
  start_hour_var : option StringVar;
  start_min_var : option StringVar;
  start_sec_var : option StringVar;
  end_hour_var : option StringVar;
  end_min_var : option StringVar;
  end_sec_var : option StringVar;
  monitor : option Monitor.t
}.
End Widget.
Definition widget_info : Type := Widget.t.

(** What [refresh_screens] does after clearing the widget list:
    [get_screen_info], the destruction of the old Tk widgets and
    [create_widgets].  Either an exception leaves it before
    [create_widgets] rebinds [self.preview_widgets], or the attribute is
    rebound to a new list that receives [built], after which the rest
    returns or raises. *)
Inductive rebuilt : Type :=
| RaisedBeforeRebind (e : exn)
| Rebound (built : list widget_info) (rest : answer unit).

(** The operating system and the toolkit, seen from the program.  Queries
    read the desktop [W]; changes return the new desktop. *)
Class Desktop (W : Type) : Type := {
  (** the devices [win32api.EnumDisplayDevices(None, i)] answers for
      [i = 0, 1, ...]; past the end the call raises *)
  display_devices : W -> list DISPLAY_DEVICE;
  (** [win32api.EnumDisplaySettings(device, mode)] *)
  EnumDisplaySettings : W -> string -> iModeNum -> answer DEVMODE;
  (** [win32api.ChangeDisplaySettings(None, 0)] *)
  ChangeDisplaySettings : W -> answer Z * W;
  (** [win32api.ChangeDisplaySettingsEx(device, devmode, flags)] *)
  ChangeDisplaySettingsEx : W -> string -> DEVMODE -> Z -> answer Z * W;
  (** [messagebox.showerror] *)
  showerror : W -> message -> answer unit * W;
  (** hour, minute and second of [datetime.now()] *)
  datetime_now : W -> Z * Z * Z;
  (** the wait of [time.sleep], for a duration in milliseconds that the
      interpreter has accepted: what the operating system answers, an
      [OSError] when it refuses the wait *)
  time_sleep : W -> Z -> answer unit * W;
  (** the Tk part of [refresh_screens] *)
  rebuild_ui : W -> rebuilt * W;
  (** a mode change neither adds nor removes a display device *)
  devices_after_change :
    forall w device dm flags,
      display_devices (snd (ChangeDisplaySettingsEx w device dm flags))
      = display_devices w;
  (** a wait of less than 2^32-1 milliseconds, which every Windows build
      of the interpreter hands on to the system as it is, returns; what a
      longer one does depends on the build and on the system *)
  sleep_returns :
    forall w ms, 0 <= ms < 4294967295 -> fst (time_sleep w ms) = Returns tt
}.

(** [win32api.EnumDisplayDevices(None, i)]. *)
Definition EnumDisplayDevices {W : Type} `{Desktop W} (w : W) (i : Z)
  : answer DISPLAY_DEVICE :=
  if i <? 0 then Raises pywintypes_error
  else match nth_error (display_devices w) (Z.to_nat i) with
       | Some d => Returns d
       | None => Raises pywintypes_error
       end.

(** The calls the program makes on the desktop, in the order of program
    text. *)
Inductive event : Type :=
| CallEnumDisplayDevices (i : Z)
| CallEnumDisplaySettings (device : string) (mode : iModeNum)
| CallChangeDisplaySettings
| CallChangeDisplaySettingsEx (device : string) (dm : DEVMODE) (flags : Z)
| CallShowError (msg : message)
| CallNow
| CallSleep (ms : Z)
| CallRebuildUI.

(** A call that only reads the desktop. *)
Definition is_query (e : event) : bool :=
  match e with
  | CallEnumDisplayDevices _ | CallEnumDisplaySettings _ _ | CallNow => true
  | _ => false
  end.

(** ** The state of [self] *)

(** The attributes of the controller that the scheduler uses.  List objects
    live in [lists] and are referred to by their index, so that a list that
    is cleared in place is seen cleared by whoever holds it.  [trace] is not
    an attribute: it records the desktop calls made so far, latest first. *)
Record self (W : Type) : Type := {
  world : W;
  trace : list event;
  (** [None] while the attribute does not exist *)
  original_settings : option (Dict.t SavedGeometry);
  lists : list (list widget_info);
  (** [None] while the attribute does not exist *)
  preview_widgets : option nat;
  auto_screen_timer_running : bool;
  detection_interval : Z
}.
Arguments world {W} _.
Arguments trace {W} _.
Arguments original_settings {W} _.
Arguments lists {W} _.
Arguments preview_widgets {W} _.
Arguments auto_screen_timer_running {W} _.
Arguments detection_interval {W} _.

(** The content of the list object [loc]. *)
Definition list_at {W : Type} (st : self W) (loc : nat) : list widget_info :=
  nth loc (lists st) [].

Fixpoint replace_nth {A : Type} (n : nat) (l : list A) (a : A) : list A :=
  match n, l with
  | _, [] => []
  | O, _ :: r => a :: r
  | S n', b :: r => b :: replace_nth n' r a
  end.

(** ** The monad of methods *)

(** How a method ends: it returns, it raises, or the model's bound on the
    number of loop iterations is used up. *)
Inductive outcome (A : Type) : Type :=
| Val (a : A)
| Exc (e : exn)
| Fuel.
Arguments Exc {A} e.
Arguments Fuel {A}.

Definition M (W A : Type) : Type := self W -> outcome A * self W.

Section Methods.

Context {W : Type} `{Desktop W}.

Definition ret {A : Type} (a : A) : M W A := fun st => (Val a, st).

Definition bind {A B : Type} (m : M W A) (k : A -> M W B) : M W B :=
  fun st =>
    match m st with
    | (Val a, st') => k a st'
    | (Exc e, st') => (Exc e, st')
    | (Fuel, st') => (Fuel, st')
    end.

Definition raise {A : Type} (e : exn) : M W A := fun st => (Exc e, st).

(** [try: m except Exception: h] *)
Definition try_except {A : Type} (m : M W A) (h : exn -> M W A) : M W A :=
  fun st =>
    match m st with
    | (Exc e, st') => h e st'
    | r => r
    end.

Definition get : M W (self W) := fun st => (Val st, st).

(** The outcome of a call is put in the hands of the caller. *)
Definition lift {A : Type} (r : answer A) : M W A :=
  match r with
  | Returns a => ret a
  | Raises e => raise e
  end.

Definition log (e : event) : M W unit :=
  fun st =>
    (Val tt,
     {| world := world st; trace := e :: trace st;
        original_settings := original_settings st; lists := lists st;
        preview_widgets := preview_widgets st;
        auto_screen_timer_running := auto_screen_timer_running st;
        detection_interval := detection_interval st |}).

Definition set_world (w : W) : M W unit :=
  fun st =>
    (Val tt,
     {| world := w; trace := trace st;
        original_settings := original_settings st; lists := lists st;
        preview_widgets := preview_widgets st;
        auto_screen_timer_running := auto_screen_timer_running st;
        detection_interval := detection_interval st |}).

Definition set_original_settings (o : option (Dict.t SavedGeometry)) : M W unit :=
  fun st =>
    (Val tt,
     {| world := world st; trace := trace st;
        original_settings := o; lists := lists st;
        preview_widgets := preview_widgets st;
        auto_screen_timer_running := auto_screen_timer_running st;
        detection_interval := detection_interval st |}).

(** [the list at loc].clear() *)
Definition clear_list (loc : nat) : M W unit :=
  fun st =>
    (Val tt,
     {| world := world st; trace := trace st;
        original_settings := original_settings st;
        lists := replace_nth loc (lists st) [];
        preview_widgets := preview_widgets st;
        auto_screen_timer_running := auto_screen_timer_running st;
        detection_interval := detection_interval st |}).

(** [self.preview_widgets = l] for a list [l] just built. *)
Definition rebind_preview_widgets (l : list widget_info) : M W unit :=
  fun st =>
    (Val tt,
     {| world := world st; trace := trace st;
        original_settings := original_settings st;
        lists := (lists st ++ [l])%list;
        preview_widgets := Some (List.length (lists st));
        auto_screen_timer_running := auto_screen_timer_running st;
        detection_interval := detection_interval st |}).

End Methods.

Declare Scope method_scope.
Delimit Scope method_scope with method.
Notation "x <- m ;; k" := (bind m (fun x => k))
  (at level 61, m at next level, right associativity) : method_scope.
Notation "m ;; k" := (bind m (fun _ => k))
  (at level 61, right associativity) : method_scope.
Open Scope method_scope.

(** ** The display operations *)

Section Controller.

Context {W : Type} `{Desktop W}.

(** *** Calls on the desktop *)

Definition call_EnumDisplayDevices (i : Z) : M W DISPLAY_DEVICE :=
  log (CallEnumDisplayDevices i) ;;
  st <- get ;;
  lift (EnumDisplayDevices (world st) i).

Definition call_EnumDisplaySettings (device : string) (mode : iModeNum)
  : M W DEVMODE :=
  log (CallEnumDisplaySettings device mode) ;;
  st <- get ;;
  lift (EnumDisplaySettings (world st) device mode).

Definition call_ChangeDisplaySettings : M W Z :=
  log CallChangeDisplaySettings ;;
  st <- get ;;
  set_world (snd (ChangeDisplaySettings (world st))) ;;
  lift (fst (ChangeDisplaySettings (world st))).

Definition call_ChangeDisplaySettingsEx (device : string) (dm : DEVMODE)
    (flags : Z) : M W Z :=
  log (CallChangeDisplaySettingsEx device dm flags) ;;
  st <- get ;;
  set_world (snd (ChangeDisplaySettingsEx (world st) device dm flags)) ;;
  lift (fst (ChangeDisplaySettingsEx (world st) device dm flags)).

Definition call_showerror (msg : message) : M W unit :=
  log (CallShowError msg) ;;
  st <- get ;;
  set_world (snd (showerror (world st) msg)) ;;
  lift (fst (showerror (world st) msg)).

Definition call_now : M W (Z * Z * Z) :=
  log CallNow ;;
  st <- get ;;
  ret (datetime_now (world st)).

(** [time.sleep], the duration in milliseconds.  The interpreter first
    turns the duration into a signed 64-bit count of nanoseconds: a whole
    number of seconds beyond 9223372036 in either direction is an
    [OverflowError].  Then a negative duration is a [ValueError].  Only then
    does it wait. *)
Definition sleep (ms : Z) : M W unit :=
  if (ms <? -9223372036000) || (9223372036000 <? ms) then raise OverflowError
  else if ms <? 0 then raise ValueError
  else log (CallSleep ms) ;;
       st <- get ;;
       set_world (snd (time_sleep (world st) ms)) ;;
       lift (fst (time_sleep (world st) ms)).

Definition call_rebuild_ui : M W rebuilt :=
  log CallRebuildUI ;;
  st <- get ;;
  set_world (snd (rebuild_ui (world st))) ;;
  ret (fst (rebuild_ui (world st))).

(** *** [get_device_name_by_monitor] *)

(** The four comparisons between a mode and the monitor's geometry. *)
Definition same_geometry (settings : DEVMODE) (m : monitor) : bool :=
  (Position_x settings =? Monitor.x m)
  && (Position_y settings =? Monitor.y m)
  && (Z.of_N (PelsWidth settings) =? Monitor.width m)
  && (Z.of_N (PelsHeight settings) =? Monitor.height m).

(** The same comparisons on a saved geometry. *)
Definition saved_matches (original : SavedGeometry) (m : monitor) : bool :=
  (Saved.position_x original =? Monitor.x m)
  && (Saved.position_y original =? Monitor.y m)
  && (Z.of_N (Saved.width original) =? Monitor.width m)
  && (Z.of_N (Saved.height original) =? Monitor.height m).

(** [hasattr(self, 'original_settings') and device in self.original_settings] *)
Definition has_saved (st : self W) (device : string) : bool :=
  match original_settings st with
  | Some d => Dict.mem d device
  | None => false
  end.

(** The body of the enumeration loop for one device: [true] when the
    loop returns the device's name.  The registry mode is asked only when
    the query of the current mode raises, the saved geometry only when
    both queries raise. *)
Definition probe_device (m : monitor) (device : string) : M W bool :=
  try_except
    (settings <- call_EnumDisplaySettings device ENUM_CURRENT_SETTINGS ;;
     ret (same_geometry settings m))
    (fun _ =>
       try_except
         (settings <- call_EnumDisplaySettings device ENUM_REGISTRY_SETTINGS ;;
          ret (same_geometry settings m))
         (fun _ =>
            st <- get ;;
            ret (match original_settings st with
                 | Some d =>
                     match Dict.get d device with
                     | Some original => saved_matches original m
                     | None => false
                     end
                 | None => false
                 end))).

(** The [while True] loop over device indices.  The devices are asked for
    by index until the call raises, which is one pass over
    [display_devices]; the call that raises ends the loop. *)
Fixpoint find_device (m : monitor) (devices : list DISPLAY_DEVICE)
    (device_index : Z) : M W (option string) :=
  match devices with
  | [] => log (CallEnumDisplayDevices device_index) ;; ret None
  | device :: rest =>
      log (CallEnumDisplayDevices device_index) ;;
      hit <- probe_device m (DeviceName device) ;;
      if hit then ret (Some (DeviceName device))
      else find_device m rest (device_index + 1)
  end.

Definition get_device_name_by_monitor (m : monitor) : M W (option string) :=
  try_except
    (st <- get ;;
     found <- find_device m (display_devices (world st)) 0 ;;
     match found with
     | Some device_name => ret (Some device_name)
     | None =>
         (* no exact match: the device at index [id - 1] *)
         try_except
           (device <- call_EnumDisplayDevices (Monitor.id m - 1) ;;
            ret (Some (DeviceName device)))
           (fun _ => ret None)
     end)
    (fun _ => ret None).

(** [not device_name] for the value the resolution returns. *)
Definition unresolved (device_name : option string) : bool :=
  match device_name with
  | None => true
  | Some n => String.eqb n ""
  end.

(** The check of one device as a function of the desktop and of the
    saved geometries: what [probe_device] answers. *)
Definition device_matches (st : self W) (m : monitor) (device : string) : bool :=
  match EnumDisplaySettings (world st) device ENUM_CURRENT_SETTINGS with
  | Returns settings => same_geometry settings m
  | Raises _ =>
      match EnumDisplaySettings (world st) device ENUM_REGISTRY_SETTINGS with
      | Returns settings => same_geometry settings m
      | Raises _ =>
          match original_settings st with
          | Some d =>
              match Dict.get d device with
              | Some original => saved_matches original m
              | None => false
              end
          | None => false
          end
      end
  end.

(** The saved geometry the program finds for a monitor:
    [original_settings] is indexed by the name of the device that the
    monitor resolves to, as in [is_monitor_on]. *)
Definition saved_geometry_of (m : monitor) : M W (option SavedGeometry) :=
  device_name <- get_device_name_by_monitor m ;;
  st <- get ;;
  ret (match device_name, original_settings st with
       | Some dn, Some d => Dict.get d dn
       | _, _ => None
       end).

(** *** [is_monitor_on] *)

Definition is_monitor_on (m : monitor) : M W bool :=
  try_except
    (device_name <- get_device_name_by_monitor m ;;
     match device_name with
     | None => ret true
     | Some dn =>
         if String.eqb dn "" then ret true
         else
           st <- get ;;
           if has_saved st dn then ret false
           else
             try_except
               (current_settings <- call_EnumDisplaySettings dn ENUM_CURRENT_SETTINGS ;;
                ret ((0 <? PelsWidth current_settings)%N
                     && (0 <? PelsHeight current_settings)%N))
               (fun _ => ret false)
     end)
    (fun _ => ret true).

(** *** [turn_off_screen] *)

Definition blank_mode (current_settings : DEVMODE) : DEVMODE :=
  {| Position_x := Position_x current_settings;
     Position_y := Position_y current_settings;
     PelsWidth := 0;
     PelsHeight := 0;
     Fields := Z.lor (Z.lor DM_PELSWIDTH DM_PELSHEIGHT) DM_POSITION |}.

Definition geometry_of (current_settings : DEVMODE) : SavedGeometry :=
  {| Saved.width := PelsWidth current_settings;
     Saved.height := PelsHeight current_settings;
     Saved.position_x := Position_x current_settings;
     Saved.position_y := Position_y current_settings |}.

Definition turn_off_screen (m : monitor) : M W unit :=
  try_except
    (device_name <- get_device_name_by_monitor m ;;
     if unresolved device_name
     then call_showerror (DeviceNameNotFound (Monitor.name m))
     else
       let dn := match device_name with Some n => n | None => "" end in
       current_settings <- call_EnumDisplaySettings dn ENUM_CURRENT_SETTINGS ;;
       st <- get ;;
       let saved := match original_settings st with
                    | Some d => d
                    | None => Dict.empty
                    end in
       set_original_settings
         (Some (Dict.set saved dn (geometry_of current_settings))) ;;
       result <- call_ChangeDisplaySettingsEx dn (blank_mode current_settings) 0 ;;
       if result =? DISP_CHANGE_SUCCESSFUL then ret tt
       else call_showerror (BlankFailedWithCode result))
    (fun e => call_showerror (BlankFailed e)).

(** *** [force_refresh_displays] *)

(** The second method: every device with a non-zero current mode has that
    mode applied again; the result counts the successes.  The loop ends
    at the first device without a name or when the enumeration raises. *)
Fixpoint reapply_modes (devices : list DISPLAY_DEVICE) (i : Z)
    (refreshed_count : nat) : M W nat :=
  match devices with
  | [] => log (CallEnumDisplayDevices i) ;; ret refreshed_count
  | device :: rest =>
      log (CallEnumDisplayDevices i) ;;
      if String.eqb (DeviceName device) "" then ret refreshed_count
      else
        ok <- try_except
                (current_settings <-
                   call_EnumDisplaySettings (DeviceName device) ENUM_CURRENT_SETTINGS ;;
                 if (0 <? PelsWidth current_settings)%N
                    && (0 <? PelsHeight current_settings)%N
                 then
                   result <- call_ChangeDisplaySettingsEx
                               (DeviceName device) current_settings CDS_UPDATEREGISTRY ;;
                   ret (result =? DISP_CHANGE_SUCCESSFUL)
                 else ret false)
                (fun _ => ret false) ;;
        reapply_modes rest (i + 1)
          (if ok then S refreshed_count else refreshed_count)
  end.

Definition force_refresh_displays : M W bool :=
  try_except
    (result <- call_ChangeDisplaySettings ;;
     if result =? DISP_CHANGE_SUCCESSFUL then ret true
     else
       sleep 200 ;;
       st <- get ;;
       refreshed_count <- reapply_modes (display_devices (world st)) 0 0 ;;
       ret (Nat.ltb 0 refreshed_count))
    (fun _ => ret false).

(** *** [refresh_screens] and [reset_displays] *)

(** [self.original_settings.clear()] *)
Definition clear_original_settings : M W unit :=
  st <- get ;;
  match original_settings st with
  | Some _ => set_original_settings (Some Dict.empty)
  | None => raise AttributeError
  end.

Definition refresh_screens : M W unit :=
  st <- get ;;
  match preview_widgets st with
  | None => raise AttributeError
  | Some loc =>
      clear_list loc ;;
      r <- call_rebuild_ui ;;
      match r with
      | RaisedBeforeRebind e => raise e
      | Rebound built rest => rebind_preview_widgets built ;; lift rest
      end
  end.

Definition reset_displays : M W unit :=
  try_except
    (refreshed <- force_refresh_displays ;;
     if refreshed then
       sleep 1000 ;;
       st <- get ;;
       (match original_settings st with
        | Some _ => clear_original_settings
        | None => ret tt
        end) ;;
       refresh_screens
     else ret tt)
    (fun _ => ret tt).

(** *** [restore_all_screens] *)

(** The names of the devices that have one, in enumeration order. *)
Fixpoint enumerate_names (devices : list DISPLAY_DEVICE) (i : Z)
  : M W (list string) :=
  match devices with
  | [] => log (CallEnumDisplayDevices i) ;; ret []
  | device :: rest =>
      log (CallEnumDisplayDevices i) ;;
      names <- enumerate_names rest (i + 1) ;;
      ret (if String.eqb (DeviceName device) "" then names
           else DeviceName device :: names)
  end.

Definition restored_mode (current_settings : DEVMODE) (original : SavedGeometry)
  : DEVMODE :=
  {| Position_x := Saved.position_x original;
     Position_y := Saved.position_y original;
     PelsWidth := Saved.width original;
     PelsHeight := Saved.height original;
     Fields := Z.lor (Z.lor DM_PELSWIDTH DM_PELSHEIGHT) DM_POSITION |}.

(** The body of the loop over the saved entries: [true] when the saved
    geometry was applied with success. *)
Definition replay_saved (available_devices : list string)
    (device_name : string) (original : SavedGeometry) : M W bool :=
  try_except
    (if negb (existsb (String.eqb device_name) available_devices) then ret false
     else
       found <- try_except
                  (cs <- call_EnumDisplaySettings device_name ENUM_CURRENT_SETTINGS ;;
                   ret (Some cs))
                  (fun _ =>
                     try_except
                       (cs <- call_EnumDisplaySettings device_name ENUM_REGISTRY_SETTINGS ;;
                        ret (Some cs))
                       (fun _ => ret None)) ;;
       match found with
       | None => ret false
       | Some current_settings =>
           result <- call_ChangeDisplaySettingsEx device_name
                       (restored_mode current_settings original) CDS_UPDATEREGISTRY ;;
           ret (result =? DISP_CHANGE_SUCCESSFUL)
       end)
    (fun _ => ret false).

Fixpoint replay_all (available_devices : list string)
    (items : list (string * SavedGeometry)) (restored_count : nat) : M W nat :=
  match items with
  | [] => ret restored_count
  | (device_name, original) :: rest =>
      ok <- replay_saved available_devices device_name original ;;
      replay_all available_devices rest
        (if ok then S restored_count else restored_count)
  end.

Definition restore_all_screens : M W unit :=
  try_except
    (st <- get ;;
     match original_settings st with
     | None | Some [] => ret tt
     | Some _ =>
         refreshed <- force_refresh_displays ;;
         if refreshed then sleep 1000 ;; clear_original_settings
         else
           st1 <- get ;;
           available_devices <- enumerate_names (display_devices (world st1)) 0 ;;
           st2 <- get ;;
           restored_count <-
             replay_all available_devices
               (match original_settings st2 with Some d => d | None => [] end) 0 ;;
           if Nat.ltb 0 restored_count then clear_original_settings else ret tt
     end)
    (fun _ => ret tt).

(** ** The scheduler *)

(** The six time variables, when the widget has them all. *)
Definition time_vars (w : widget_info)
  : option (StringVar * StringVar * StringVar * StringVar * StringVar * StringVar) :=
  match Widget.start_hour_var w, Widget.start_min_var w, Widget.start_sec_var w,
        Widget.end_hour_var w, Widget.end_min_var w, Widget.end_sec_var w with
  | Some sh, Some sm, Some ss, Some eh, Some em, Some es =>
      Some (sh, sm, ss, eh, em, es)
  | _, _, _, _, _, _ => None
  end.

(** The reconciliation of one monitor once the window test is known. *)
Definition reconcile (in_window : bool) (m : monitor) : M W unit :=
  if in_window then
    on <- is_monitor_on m ;;
    if on then turn_off_screen m else ret tt
  else
    on <- is_monitor_on m ;;
    if negb on then reset_displays else ret tt.

(** The body of the loop of [check_auto_screen_off] for one widget, inside
    its [try]; every [continue] is a return. *)
Definition check_widget (now : Z * Z * Z) (w : widget_info) : M W unit :=
  let '(current_hour, current_min, current_sec) := now in
  match Widget.auto_enabled w with
  | Some true =>
      match time_vars w with
      | None => ret tt
      | Some (sh, sm, ss, eh, em, es) =>
          start_hour <- lift (int_get sh) ;;
          start_min <- lift (int_get sm) ;;
          start_sec <- lift (int_get ss) ;;
          end_hour <- lift (int_get eh) ;;
          end_min <- lift (int_get em) ;;
          end_sec <- lift (int_get es) ;;
          let current_total_sec := total_sec current_hour current_min current_sec in
          let start_total_sec := total_sec start_hour start_min start_sec in
          let end_total_sec := total_sec end_hour end_min end_sec in
          match Widget.monitor w with
          | None => ret tt
          | Some m =>
              reconcile (in_sleep_time start_total_sec end_total_sec current_total_sec) m
          end
      end
  | _ => ret tt
  end.

(** One step of the [for] loop: the widget and what is done with it. *)
Definition step_widget (now : Z * Z * Z) (w : widget_info) : M W unit :=
  try_except (check_widget now w) (fun _ => ret tt).

(** [for widget_info in self.preview_widgets]: the iterator holds the list
    object [loc] and an index, and looks the list up again at each step.
    [fuel] bounds the number of steps. *)
Fixpoint for_widgets (fuel : nat) (loc idx : nat) (now : Z * Z * Z) : M W unit :=
  fun st =>
    match nth_error (list_at st loc) idx with
    | None => (Val tt, st)
    | Some w =>
        match fuel with
        | O => (Fuel, st)
        | S fuel' => (step_widget now w ;; for_widgets fuel' loc (S idx) now) st
        end
    end.

Definition check_auto_screen_off : M W unit :=
  try_except
    (st <- get ;;
     match preview_widgets st with
     | None => ret tt
     | Some loc =>
         match list_at st loc with
         | [] => ret tt
         | _ :: _ =>
             now <- call_now ;;
             for_widgets (List.length (list_at st loc)) loc 0 now
         end
     end)
    (fun _ => ret tt).

(** One round of [timer_loop]. *)
Definition timer_round : M W unit :=
  try_except
    (check_auto_screen_off ;;
     st <- get ;;
     sleep (detection_interval st * 1000))
    (fun _ =>
       st <- get ;;
       sleep (detection_interval st * 1000)).

(** [timer_loop] cut after [rounds] rounds: [Fuel] says that the loop is
    still running then. *)
Fixpoint timer_loop (rounds : nat) : M W unit :=
  fun st =>
    if auto_screen_timer_running st then
      match rounds with
      | O => (Fuel, st)
      | S rounds' => (timer_round ;; timer_loop rounds') st
      end
    else (Val tt, st).

End Controller.

(** ** What a method may change *)

(** [sound R m]: method [m] never uses up the iteration bound, and the state
    it leaves is related by [R] to the state it started in. *)
Definition sound {W A : Type} (R : self W -> self W -> Prop) (m : M W A) : Prop :=
  forall st, fst (m st) <> Fuel /\ R st (snd (m st)).

(** Only queries were made: the trace grew by queries and nothing else
    changed. *)
Definition only_queries {W : Type} (st st' : self W) : Prop :=
  world st' = world st
  /\ original_settings st' = original_settings st
  /\ lists st' = lists st
  /\ preview_widgets st' = preview_widgets st
  /\ auto_screen_timer_running st' = auto_screen_timer_running st
  /\ detection_interval st' = detection_interval st
  /\ exists calls, trace st' = (calls ++ trace st)%list
                   /\ forallb is_query calls = true.

(** The saved geometries are untouched. *)
Definition keeps_saved {W : Type} (st st' : self W) : Prop :=
  original_settings st' = original_settings st.

(** The widget lists are untouched. *)
Definition keeps_widgets {W : Type} (st st' : self W) : Prop :=
  lists st' = lists st /\ preview_widgets st' = preview_widgets st.

(** The timer's flag and interval are untouched, no list object is dropped
    and none of the existing ones got longer. *)
Definition shrinks {W : Type} (st st' : self W) : Prop :=
  auto_screen_timer_running st' = auto_screen_timer_running st
  /\ detection_interval st' = detection_interval st
  /\ (List.length (lists st) <= List.length (lists st'))%nat
  /\ forall loc, (loc < List.length (lists st))%nat ->
                 (List.length (list_at st' loc) <= List.length (list_at st loc))%nat.

(** The trace grew. *)
Definition trace_grows {W : Type} (st st' : self W) : Prop :=
  exists later, trace st' = (later ++ trace st)%list.

(** The trace grew, and its first new call is [first]. *)
Definition starts_with {W : Type} (first : event) (st st' : self W) : Prop :=
  exists later, trace st' = (later ++ first :: trace st)%list.

(** ** A simulated desktop

    A small desktop on which the methods can be run: each device has a
    current and a registry mode (or a query that raises); applying a mode
    with success makes it the current one; the global refresh, when it
    succeeds, brings every device back to its registry mode. *)
Module Sim.

Record device : Type := {
  dev_name : string;
  current : answer DEVMODE;
  registry : answer DEVMODE
}.

Record desktop : Type := {
  devices : list device;
  (** the answer of [ChangeDisplaySettings(None, 0)] *)
  refresh_answer : answer Z;
  (** the answer of every [ChangeDisplaySettingsEx] *)
  change_answer : answer Z;
  (** the answer of every [showerror] *)
  dialog_answer : answer unit;
  clock : Z * Z * Z;
  ui : rebuilt
}.

Fixpoint find (ds : list device) (n : string) : option device :=
  match ds with
  | [] => None
  | d :: r => if String.eqb (dev_name d) n then Some d else find r n
  end.

Definition enum_settings (w : desktop) (n : string) (mode : iModeNum)
  : answer DEVMODE :=
  match find (devices w) n with
  | None => Raises pywintypes_error
  | Some d =>
      match mode with
      | ENUM_CURRENT_SETTINGS => current d
      | ENUM_REGISTRY_SETTINGS => registry d
      end
  end.

Definition with_devices (w : desktop) (ds : list device) : desktop :=
  {| devices := ds; refresh_answer := refresh_answer w;
     change_answer := change_answer w; dialog_answer := dialog_answer w;
     clock := clock w; ui := ui w |}.

Definition succeeded (r : answer Z) : bool :=
  match r with
  | Returns code => code =? DISP_CHANGE_SUCCESSFUL
  | Raises _ => false
  end.

Definition apply_mode (n : string) (dm : DEVMODE) (d : device) : device :=
  if String.eqb (dev_name d) n
  then {| dev_name := dev_name d; current := Returns dm; registry := registry d |}
  else d.

Definition wake (d : device) : device :=
  {| dev_name := dev_name d; current := registry d; registry := registry d |}.

Definition change_all (w : desktop) : answer Z * desktop :=
  (refresh_answer w,
   if succeeded (refresh_answer w)
   then with_devices w (map wake (devices w)) else w).

Definition change_ex (w : desktop) (n : string) (dm : DEVMODE) (flags : Z)
  : answer Z * desktop :=
  (change_answer w,
   if succeeded (change_answer w)
   then with_devices w (map (apply_mode n dm) (devices w)) else w).

Definition names (w : desktop) : list DISPLAY_DEVICE :=
  map (fun d => {| DeviceName := dev_name d |}) (devices w).

Definition names_after_change w n dm flags :
  names (snd (change_ex w n dm flags)) = names w.
Proof.
  unfold change_ex, names; simpl.
  destruct (succeeded (change_answer w)); [|reflexivity].
  simpl. rewrite map_map. apply map_ext.
  intros d. unfold apply_mode. now destruct (String.eqb (dev_name d) n).
Defined.

#[global] Instance desktop_is_Desktop : Desktop desktop := {|
  display_devices := names;
  EnumDisplaySettings := enum_settings;
  ChangeDisplaySettings := change_all;
  ChangeDisplaySettingsEx := change_ex;
  showerror := fun w _ => (dialog_answer w, w);
  datetime_now := clock;
  time_sleep := fun w _ => (Returns tt, w);
  rebuild_ui := fun w => (ui w, w);
  devices_after_change := names_after_change;
  sleep_returns := fun _ _ _ => eq_refl
|}.

(** A controller on desktop [w] that has blanked nothing yet and shows
    the widgets [ws]. *)
Definition controller (w : desktop) (ws : list widget_info) : self desktop :=
  {| world := w; trace := []; original_settings := None;
     lists := [ws]; preview_widgets := Some 0%nat;
     auto_screen_timer_running := true; detection_interval := 5 |}.

End Sim.

(** ** Desktops and controllers used below *)

Module Examples.

Definition mode (px py : Z) (w h : N) : DEVMODE :=
  {| Position_x := px; Position_y := py; PelsWidth := w; PelsHeight := h;
     Fields := 0 |}.

Definition var (z : Z) : option StringVar := Some (TkVar (Returns z)).

(** The primary monitor, 1920x1080 at the origin. *)
Definition monitor_A : monitor :=
  {| Monitor.id := 1; Monitor.name := "DELL U2415"; Monitor.width := 1920;
     Monitor.height := 1080; Monitor.x := 0; Monitor.y := 0;
     Monitor.is_primary := true |}.

(** The second monitor, 1280x1024 to the right of the first. *)
Definition monitor_B : monitor :=
  {| Monitor.id := 2; Monitor.name := "HP L1950"; Monitor.width := 1280;
     Monitor.height := 1024; Monitor.x := 1920; Monitor.y := 0;
     Monitor.is_primary := false |}.

Definition widget (m : monitor) (enabled : bool) (sh sm ss eh em es : Z)
  : widget_info :=
  {| Widget.auto_enabled := Some enabled;
     Widget.start_hour_var := var sh; Widget.start_min_var := var sm;
     Widget.start_sec_var := var ss; Widget.end_hour_var := var eh;
     Widget.end_min_var := var em; Widget.end_sec_var := var es;
     Widget.monitor := Some m |}.

(** A: never enabled.  B: enabled from 20:00:00 to 06:00:00. *)
Definition widget_A : widget_info := widget monitor_A false 17 0 0 7 0 0.
Definition widget_B : widget_info := widget monitor_B true 20 0 0 6 0 0.

Definition awake (n : string) (dm : DEVMODE) : Sim.device :=
  {| Sim.dev_name := n; Sim.current := Returns dm; Sim.registry := Returns dm |}.

(** A device showing the zero-size mode, its registry mode intact. *)
Definition blanked (n : string) (dm : DEVMODE) : Sim.device :=
  {| Sim.dev_name := n;
     Sim.current := Returns (mode (Position_x dm) (Position_y dm) 0 0);
     Sim.registry := Returns dm |}.

Definition display1 : string := "\\.\DISPLAY1".
Definition display2 : string := "\\.\DISPLAY2".
Definition display3 : string := "\\.\DISPLAY3".

Definition desk (ds : list Sim.device) (refresh : answer Z) (now : Z * Z * Z)
  : Sim.desktop :=
  {| Sim.devices := ds; Sim.refresh_answer := refresh;
     Sim.change_answer := Returns 0; Sim.dialog_answer := Returns tt;
     Sim.clock := now; Sim.ui := Rebound [] (Returns tt) |}.

(** Both monitors awake at 21:00:00. *)
Definition evening : Sim.desktop :=
  desk [awake display1 (mode 0 0 1920 1080); awake display2 (mode 1920 0 1280 1024)]
       (Returns 0) (21, 0, 0).

(** The record of monitor B after a refresh that found it at another
    position and index. *)
Definition monitor_B_moved : monitor :=
  {| Monitor.id := 1; Monitor.name := "HP L1950"; Monitor.width := 1280;
     Monitor.height := 1024; Monitor.x := 0; Monitor.y := 0;
     Monitor.is_primary := true |}.

Definition geometry_B : SavedGeometry :=
  {| Saved.width := 1280; Saved.height := 1024;
     Saved.position_x := 1920; Saved.position_y := 0 |}.

Definition geometry_A : SavedGeometry :=
  {| Saved.width := 1920; Saved.height := 1080;
     Saved.position_x := 0; Saved.position_y := 0 |}.

Definition with_saved {W : Type} (st : self W) (d : Dict.t SavedGeometry)
  : self W :=
  {| world := world st; trace := trace st; original_settings := Some d;
     lists := lists st; preview_widgets := preview_widgets st;
     auto_screen_timer_running := auto_screen_timer_running st;
     detection_interval := detection_interval st |}.

(** Night: A awake, B blanked by the program. *)
Definition night_devices (name_of_B : string) : list Sim.device :=
  [awake display1 (mode 0 0 1920 1080);
   blanked name_of_B (mode 1920 0 1280 1024)].

Definition night : self Sim.desktop :=
  with_saved
    (Sim.controller (desk (night_devices display2) (Returns 0) (23, 30, 0))
                    [widget_A; widget_B])
    [(display2, geometry_B)].

(** The same night after the driver has renamed B's device. *)
Definition night_renamed : self Sim.desktop :=
  with_saved
    (Sim.controller (desk (night_devices display3) (Returns 0) (23, 30, 0))
                    [widget_A; widget_B])
    [(display2, geometry_B)].

(** Morning, 06:30:00: both monitors are blanked, A by hand and B by the
    scheduler; the global refresh works. *)
Definition morning : self Sim.desktop :=
  with_saved
    (Sim.controller
       (desk [blanked display1 (mode 0 0 1920 1080);
              blanked display2 (mode 1920 0 1280 1024)] (Returns 0) (6, 30, 0))
       [widget_A; widget_B])
    [(display1, geometry_A); (display2, geometry_B)].

(** A desktop that refuses every mode change, with code -1. *)
Definition refusing (ds : list Sim.device) (now : Z * Z * Z) : Sim.desktop :=
  {| Sim.devices := ds; Sim.refresh_answer := Returns (-1);
     Sim.change_answer := Returns (-1); Sim.dialog_answer := Returns tt;
     Sim.clock := now; Sim.ui := Rebound [] (Returns tt) |}.

(** Morning, 06:30:00, on the refusing desktop: B is blanked and its
    geometry is saved. *)
Definition morning_refused : self Sim.desktop :=
  with_saved
    (Sim.controller (refusing (night_devices display2) (6, 30, 0))
                    [widget_A; widget_B])
    [(display2, geometry_B)].





(** Is there a call that applies a mode to [device] in the trace? *)
Definition applies_mode_to (device : string) (e : event) : bool :=
  match e with
  | CallChangeDisplaySettingsEx n _ _ => String.eqb n device
  | _ => false
  end.

(** Is the call the global refresh [ChangeDisplaySettings(None, 0)]? *)
Definition is_global_refresh (e : event) : bool :=
  match e with
  | CallChangeDisplaySettings => true
  | _ => false
  end.

(** A desktop whose only device shows 1280x720: no mode matches the
    geometry of monitor A. *)
Definition mismatch : self Sim.desktop :=
  Sim.controller (desk [awake display1 (mode 0 0 1280 720)] (Returns 0) (12, 0, 0))
                 [widget_A].

(** A configuration whose section for monitor B holds a flag that is no
    boolean word. *)
Definition config_bad_flag : ConfigParser :=
  {| defaults := [];
     sections := [("HP L1950_1280x1024",
                   [("auto_enabled", "maybe"); ("start_time", "20:0:0");
                    ("end_time", "6:0:0")])] |}.


(** A configuration whose section for monitor B holds a start text with an
    escaped percent sign. *)
Definition config_percent : ConfigParser :=
  {| defaults := [];
     sections := [("HP L1950_1280x1024", [("start_time", "5%%")])] |}.

End Examples.


(** ** Writing the schedule store *)

(** [value.replace('%%', '')] *)
Fixpoint remove_escaped_percent (s : string) : string :=
  match s with
  | EmptyString => EmptyString
  | String "%" (String "%" r) => remove_escaped_percent r
  | String c r => String c (remove_escaped_percent r)
  end.

(** [_KEYCRE.sub('', s)]: every [%(name)s] with a non-empty name is
    removed, from left to right.  [n] bounds the number of characters still
    to scan. *)
Fixpoint remove_references (n : nat) (s : string) : string :=
  match n with
  | O => s
  | S n' =>
      match s with
      | EmptyString => EmptyString
      | String "%" (String "(" r) =>
          match key_reference r with
          | Some (String _ _, rest) => remove_references n' rest
          | _ => String "%" (remove_references n' (String "(" r))
          end
      | String c r => String c (remove_references n' r)
      end
  end.

(** [BasicInterpolation.before_set]: a percent sign that is neither doubled
    nor the start of a reference is refused. *)
Definition before_set (value : string) : answer string :=
  let tmp := remove_escaped_percent value in
  if contains "%" (remove_references (String.length tmp) tmp)
  then Raises ValueError
  else Returns value.

(** [config.add_section(section)] for a section that is neither [DEFAULT]
    nor present, which is how [save_monitor_config] and
    [save_detection_interval] call it. *)
Definition add_section (c : ConfigParser) (section : string) : ConfigParser :=
  {| defaults := defaults c;
     sections := (sections c ++ [(section, Dict.empty)])%list |}.

(** [config.set(section, option, value)], also reached by
    [config[section][option] = value]: a non-empty value is validated, the
    option name is lowered, and the value lands in the section (in the
    defaults for [DEFAULT] or an empty section name). *)
Definition config_set (c : ConfigParser) (section opt value : string)
  : answer ConfigParser :=
  match (if String.eqb value "" then Returns value else before_set value) with
  | Raises e => Raises e
  | Returns v =>
      if orb (String.eqb section "") (String.eqb section default_section)
      then Returns {| defaults := Dict.set (defaults c) (lower opt) v;
                      sections := sections c |}
      else
        match Dict.get (sections c) section with
        | None => Raises NoSectionError
        | Some d =>
            Returns {| defaults := defaults c;
                       sections := Dict.set (sections c) section
                                            (Dict.set d (lower opt) v) |}
        end
  end.

(** A run of assignments [config[section][option] = value] on the parser
    object: the first one that raises ends the run and leaves the earlier
    ones done. *)
Fixpoint set_options (c : ConfigParser) (section : string)
    (assignments : list (string * string)) : answer unit * ConfigParser :=
  match assignments with
  | [] => (Returns tt, c)
  | (opt, value) :: rest =>
      match config_set c section opt value with
      | Raises e => (Raises e, c)
      | Returns c' => set_options c' section rest
      end
  end.

(** [save_monitor_config] on the parser object; the write of the file by
    [save_config], whose errors are swallowed, comes after it and leaves the
    parser as it is. *)
Definition save_monitor_config (c : ConfigParser) (m : monitor)
    (enabled : bool) (start_text end_text : string)
  : answer unit * ConfigParser :=
  let key := get_monitor_config_key m in
  set_options (if config_contains c key then c else add_section c key) key
    [("auto_enabled", py_str_bool enabled);
     ("start_time", start_text);
     ("end_time", end_text);
     ("monitor_name", Monitor.name m);
     ("resolution", py_str (Monitor.width m) ++ "x" ++ py_str (Monitor.height m))].

(** [config.getint(section, option, fallback=fb)] *)
Definition config_getint (c : ConfigParser) (section opt : string)
    (fallback : Z) : answer Z :=
  match config_get c section opt None with
  | Returns value => py_int value
  | Raises NoSectionError | Raises NoOptionError => Returns fallback
  | Raises e => Raises e
  end.

(** What [load_config] finds on disk: no file; a file whose reading raises,
    after the parser has taken in [partial]; a file that is read into
    [content]. *)
Inductive config_file : Type :=
| NoFile
| ReadRaises (partial : ConfigParser) (e : exn)
| ReadOk (content : ConfigParser).

(** [load_config], run on the fresh parser of [__init__]: the parser and the
    detection interval it leaves. *)
Definition load_config (f : config_file) : ConfigParser * Z :=
  match f with
  | NoFile => (empty_config, 5)
  | ReadRaises partial _ => (partial, 5)
  | ReadOk content =>
      (content,
       if has_section content "SETTINGS" then
         match config_getint content "SETTINGS" "detection_interval" 5 with
         | Returns n => n
         | Raises _ => 5
         end
       else 5)
  end.

(** [save_detection_interval] on the parser object and the interval: the
    text of the spin box is read as an integer, kept as the interval and
    stored under [SETTINGS]; an exception anywhere leaves what was done
    before it. *)
Definition save_detection_interval (c : ConfigParser) (interval : Z)
    (detection_interval_var : StringVar) : ConfigParser * Z :=
  match int_get detection_interval_var with
  | Raises _ => (c, interval)
  | Returns n =>
      let c0 := if has_section c "SETTINGS" then c else add_section c "SETTINGS" in
      match config_set c0 "SETTINGS" "detection_interval" (py_str n) with
      | Returns c' => (c', n)
      | Raises _ => (c0, n)
      end
  end.

(** ** Monitor names from EDID *)

(** [bytes.rstrip(b'\x00\x0A\x20')] *)
Definition is_padding (b : Byte.byte) : bool :=
  let n := Byte.to_N b in
  ((n =? 0) || (n =? 10) || (n =? 32))%N.

Fixpoint rstrip_padding (bs : list Byte.byte) : list Byte.byte :=
  match bs with
  | [] => []
  | b :: r =>
      match rstrip_padding r with
      | [] => if is_padding b then [] else [b]
      | r' => b :: r'
      end
  end.

(** [bytes.decode('ascii', errors='ignore')]: the bytes above 127 are
    dropped. *)
Fixpoint decode_ascii (bs : list Byte.byte) : string :=
  match bs with
  | [] => EmptyString
  | b :: r =>
      if (Byte.to_N b <? 128)%N then String (ascii_of_byte b) (decode_ascii r)
      else decode_ascii r
  end.

(** [s.strip()] *)
Definition strip (s : string) : string := rstrip (lstrip s).

(** [data[i:j]] *)
Definition slice {A : Type} (l : list A) (i j : nat) : list A :=
  firstn (j - i) (skipn i l).

(** [range(start, stop, step)] for a positive step; [n] bounds the number
    of elements. *)
Fixpoint range (n start stop step : nat) : list nat :=
  match n with
  | O => []
  | S n' => if Nat.ltb start stop then start :: range n' (start + step) stop step
            else []
  end.

(** The body of the loop of [parse_edid_monitor_name] for the descriptor at
    offset [i]: the name it returns, if it returns one. *)
Definition descriptor_name (edid_data : list Byte.byte) (i : nat) : option string :=
  if Nat.ltb (i + 17) (List.length edid_data) then
    match nth_error edid_data (i + 3) with
    | Some tag =>
        if (Byte.to_N tag =? 252)%N then
          let name_bytes := slice edid_data (i + 5) (i + 18) in
          let name := decode_ascii (rstrip_padding name_bytes) in
          if String.eqb (strip name) "" then None else Some (strip name)
        else None
    | None => None
    end
  else None.

Fixpoint first_descriptor_name (edid_data : list Byte.byte) (offsets : list nat)
  : option string :=
  match offsets with
  | [] => None
  | i :: rest =>
      match descriptor_name edid_data i with
      | Some n => Some n
      | None => first_descriptor_name edid_data rest
      end
  end.

(** [parse_edid_monitor_name] *)
Definition parse_edid_monitor_name (edid_data : list Byte.byte) : option string :=
  if Nat.ltb (List.length edid_data) 128 then None
  else first_descriptor_name edid_data (range 126 54 126 18).

(** ** The list of monitors *)

(** One monitor as [screeninfo.get_monitors] reports it. *)
Module Screen.
Record t : Type := {
  x : Z;
  y : Z;
  width : Z;
  height : Z;
  is_primary : bool
}.
End Screen.

(** The loop of [get_screen_info] from index [i] on: the monitors are
    numbered from one, and named after the display device of the same index
    when there is one. *)
Fixpoint screen_info_from (i : nat) (monitors : list Screen.t)
    (display_devices : list string) : list monitor :=
  match monitors with
  | [] => []
  | mon :: rest =>
      {| Monitor.id := Z.of_nat i + 1;
         Monitor.name := nth i display_devices ("显示器 " ++ py_str (Z.of_nat i + 1));
         Monitor.width := Screen.width mon;
         Monitor.height := Screen.height mon;
         Monitor.x := Screen.x mon;
         Monitor.y := Screen.y mon;
         Monitor.is_primary := Screen.is_primary mon |}
      :: screen_info_from (S i) rest display_devices
  end.

(** The list [get_screen_info] builds from the monitors and the names of
    the display devices. *)
Definition screen_info (monitors : list Screen.t) (display_devices : list string)
  : list monitor :=
  screen_info_from 0 monitors display_devices.

(** ** The preview's crop *)

(** [min] and [max] of a generator; on an empty one they raise. *)
Definition py_min (l : list Z) : answer Z :=
  match l with
  | [] => Raises ValueError
  | a :: r => Returns (fold_left Z.min r a)
  end.

Definition py_max (l : list Z) : answer Z :=
  match l with
  | [] => Raises ValueError
  | a :: r => Returns (fold_left Z.max r a)
  end.

(** The bounding box that [capture_screen_preview] grabs: left, top, right
    and bottom of all monitors. *)
Definition bounding_box (monitors : list monitor) : answer (Z * Z * Z * Z) :=
  match py_min (map Monitor.x monitors), py_min (map Monitor.y monitors),
        py_max (map (fun m => Monitor.x m + Monitor.width m) monitors),
        py_max (map (fun m => Monitor.y m + Monitor.height m) monitors) with
  | Returns l, Returns t, Returns r, Returns b => Returns (l, t, r, b)
  | Raises e, _, _, _ | _, Raises e, _, _ | _, _, Raises e, _
  | _, _, _, Raises e => Raises e
  end.

(** The box that [capture_screen_preview] crops out of the grabbed image of
    [virtual_width] by [virtual_height] pixels. *)
Definition crop_box (monitors : list monitor) (m : monitor)
    (virtual_width virtual_height : Z) : answer (Z * Z * Z * Z) :=
  match bounding_box monitors with
  | Raises e => Raises e
  | Returns (all_left, all_top, _, _) =>
      let crop_left := Monitor.x m - all_left in
      let crop_top := Monitor.y m - all_top in
      let crop_right := crop_left + Monitor.width m in
      let crop_bottom := crop_top + Monitor.height m in
      Returns (Z.max 0 crop_left, Z.max 0 crop_top,
               Z.min virtual_width crop_right, Z.min virtual_height crop_bottom)
  end.

(** ** More desktops and inputs *)

Module Cases.

(** A parser with settings and an entry for another monitor. *)
Definition config_office : ConfigParser :=
  {| defaults := [];
     sections := [("SETTINGS", [("detection_interval", "10")]);
                  ("DELL U2415_1920x1080",
                   [("auto_enabled", "True"); ("start_time", "18:30:0");
                    ("end_time", "6:0:0")])] |}.

(** The descriptor block of an EDID: eighteen bytes at offset 54. *)
Definition descriptor (tag : Byte.byte) (text : list Byte.byte) : list Byte.byte :=
  ([Byte.x00; Byte.x00; Byte.x00; tag; Byte.x00] ++ text)%list.

(** An EDID of 128 bytes whose second descriptor names the monitor
    [DELL U2415], padded with a line feed and spaces. *)
Definition edid_dell : list Byte.byte :=
  (repeat Byte.x00 54
   ++ descriptor Byte.xff (repeat Byte.x31 13)
   ++ descriptor Byte.xfc
        [Byte.x44; Byte.x45; Byte.x4c; Byte.x4c; Byte.x20; Byte.x55; Byte.x32;
         Byte.x34; Byte.x31; Byte.x35; Byte.x0a; Byte.x20; Byte.x20]
   ++ repeat Byte.x00 38)%list.

Definition screen_left : Screen.t :=
  {| Screen.x := -1280; Screen.y := 0; Screen.width := 1280;
     Screen.height := 1024; Screen.is_primary := false |}.

Definition screen_main : Screen.t :=
  {| Screen.x := 0; Screen.y := 0; Screen.width := 1920;
     Screen.height := 1080; Screen.is_primary := true |}.

(** Evening on a desktop that refuses every change: both monitors are
    awake. *)
Definition evening_refused : self Sim.desktop :=
  Sim.controller
    (Examples.refusing
       [Examples.awake Examples.display1 (Examples.mode 0 0 1920 1080);
        Examples.awake Examples.display2 (Examples.mode 1920 0 1280 1024)]
       (21, 0, 0))
    [Examples.widget_A; Examples.widget_B].

(** A controller whose interval is [-3]. *)
Definition hasty : self Sim.desktop :=
  {| world := Examples.evening; trace := []; original_settings := None;
     lists := [[Examples.widget_A; Examples.widget_B]];
     preview_widgets := Some 0%nat;
     auto_screen_timer_running := true; detection_interval := -3 |}.

End Cases.

(** * Properties *)

(** ** Dictionaries *)

Lemma Dict_get_set_same {V : Type} (d : Dict.t V) k v :
  Dict.get (Dict.set d k v) k = Some v.
Proof.
  induction d as [|[k' v'] r IH]; simpl.
  - now rewrite String.eqb_refl.
  - destruct (String.eqb k' k) eqn:E; simpl; rewrite E; auto.
Qed.

Lemma Dict_get_set_other {V : Type} (d : Dict.t V) k k' v :
  k <> k' -> Dict.get (Dict.set d k v) k' = Dict.get d k'.
Proof.
  intros Hne. induction d as [|[k0 v0] r IH]; simpl.
  - destruct (String.eqb_spec k k'); congruence.
  - destruct (String.eqb_spec k0 k) as [->|Hk]; simpl.
    + destruct (String.eqb_spec k k'); congruence.
    + destruct (String.eqb_spec k0 k'); auto.
Qed.

(** ** Reasoning about methods *)

Section Framework.

Context {W : Type} `{Desktop W}.
Variable R : self W -> self W -> Prop.
Hypothesis R_refl : forall st, R st st.
Hypothesis R_trans : forall a b c, R a b -> R b c -> R a c.

Lemma sound_ret {A : Type} (a : A) : sound R (ret a).
Proof. intros st; simpl; split; [discriminate | apply R_refl]. Qed.

Lemma sound_raise {A : Type} (e : exn) : sound R (raise (A := A) e).
Proof. intros st; simpl; split; [discriminate | apply R_refl]. Qed.

Lemma sound_get : sound R get.
Proof. intros st; simpl; split; [discriminate | apply R_refl]. Qed.

Lemma sound_lift {A : Type} (r : answer A) : sound R (lift r).
Proof. destruct r; [apply sound_ret | apply sound_raise]. Qed.

Lemma sound_bind {A B : Type} (m : M W A) (k : A -> M W B) :
  sound R m -> (forall a, sound R (k a)) -> sound R (bind m k).
Proof.
  intros Hm Hk st. unfold bind.
  destruct (Hm st) as [Hf Hr]. destruct (m st) as [[a|e|] st1]; simpl in *.
  - destruct (Hk a st1) as [Hf' Hr']. split; [assumption | eauto].
  - split; [discriminate | assumption].
  - now elim Hf.
Qed.

Lemma sound_try {A : Type} (m : M W A) (h : exn -> M W A) :
  sound R m -> (forall e, sound R (h e)) -> sound R (try_except m h).
Proof.
  intros Hm Hh st. unfold try_except.
  destruct (Hm st) as [Hf Hr]. destruct (m st) as [[a|e|] st1]; simpl in *.
  - split; [discriminate | assumption].
  - destruct (Hh e st1) as [Hf' Hr']. split; [assumption | eauto].
  - now elim Hf.
Qed.

End Framework.

(** One step of a soundness proof on the text of a method. *)
Ltac sound_step :=
  match goal with
  | |- sound _ (ret _) => apply sound_ret; assumption
  | |- sound _ (raise _) => apply sound_raise; assumption
  | |- sound _ get => apply sound_get; assumption
  | |- sound _ (lift _) => apply sound_lift; assumption
  | |- sound _ (bind _ _) => apply sound_bind; [assumption | | intros ?]
  | |- sound _ (try_except _ _) => apply sound_try; [assumption | | intros ?]
  | |- sound _ (if ?b then _ else _) => destruct b
  | |- sound _ (match ?x with _ => _ end) => destruct x
  | |- sound _ _ => solve [auto]
  end.

Ltac sound_auto := repeat sound_step.

Section Frames.

Context {W : Type} `{Desktop W}.
Variable R : self W -> self W -> Prop.
Hypothesis R_refl : forall st, R st st.
Hypothesis R_trans : forall a b c, R a b -> R b c -> R a c.

(** What the relation has to accept, primitive by primitive. *)
Hypothesis R_query : forall e, is_query e = true -> sound R (log e).
Hypothesis R_log : forall e, sound R (log e).
Hypothesis R_world : forall w, sound R (set_world w).
Hypothesis R_saved : forall o, sound R (set_original_settings o).
Hypothesis R_clear : forall loc, sound R (clear_list loc).
Hypothesis R_rebind : forall l, sound R (rebind_preview_widgets l).

Lemma sound_call_EnumDisplayDevices i : sound R (call_EnumDisplayDevices i).
Proof.
  unfold call_EnumDisplayDevices.
  apply sound_bind; [assumption | now apply R_query | intros _].
  sound_auto.
Qed.

Lemma sound_call_EnumDisplaySettings device mode :
  sound R (call_EnumDisplaySettings device mode).
Proof.
  unfold call_EnumDisplaySettings.
  apply sound_bind; [assumption | now apply R_query | intros _].
  sound_auto.
Qed.

Lemma sound_probe_device m device : sound R (probe_device m device).
Proof.
  pose proof sound_call_EnumDisplaySettings.
  unfold probe_device. sound_auto.
Qed.

Lemma sound_find_device m devices i : sound R (find_device m devices i).
Proof.
  pose proof (sound_probe_device m).
  revert i. induction devices as [|d rest IH]; intros i; simpl.
  - apply sound_bind; [assumption | now apply R_query | intros _]. sound_auto.
  - apply sound_bind; [assumption | now apply R_query | intros _]. sound_auto.
Qed.

Lemma sound_get_device_name_by_monitor m :
  sound R (get_device_name_by_monitor m).
Proof.
  pose proof (sound_find_device m).
  pose proof sound_call_EnumDisplayDevices.
  unfold get_device_name_by_monitor. sound_auto.
Qed.

Lemma sound_is_monitor_on m : sound R (is_monitor_on m).
Proof.
  pose proof (sound_get_device_name_by_monitor m).
  pose proof sound_call_EnumDisplaySettings.
  unfold is_monitor_on. sound_auto.
Qed.

Lemma sound_call_now : sound R call_now.
Proof.
  unfold call_now.
  apply sound_bind; [assumption | now apply R_query | intros _]. sound_auto.
Qed.

Lemma sound_call_ChangeDisplaySettings : sound R call_ChangeDisplaySettings.
Proof. unfold call_ChangeDisplaySettings. sound_auto. Qed.

Lemma sound_call_ChangeDisplaySettingsEx device dm flags :
  sound R (call_ChangeDisplaySettingsEx device dm flags).
Proof. unfold call_ChangeDisplaySettingsEx. sound_auto. Qed.

Lemma sound_call_showerror msg : sound R (call_showerror msg).
Proof. unfold call_showerror. sound_auto. Qed.

Lemma sound_sleep ms : sound R (sleep ms).
Proof. unfold sleep. sound_auto. Qed.

Lemma sound_call_rebuild_ui : sound R call_rebuild_ui.
Proof. unfold call_rebuild_ui. sound_auto. Qed.

Lemma sound_turn_off_screen m : sound R (turn_off_screen m).
Proof.
  pose proof (sound_get_device_name_by_monitor m).
  pose proof sound_call_EnumDisplaySettings.
  pose proof sound_call_ChangeDisplaySettingsEx.
  pose proof sound_call_showerror.
  unfold turn_off_screen. sound_auto.
Qed.

Lemma sound_reapply_modes devices i n : sound R (reapply_modes devices i n).
Proof.
  pose proof sound_call_EnumDisplaySettings.
  pose proof sound_call_ChangeDisplaySettingsEx.
  revert i n. induction devices as [|d rest IH]; intros i n; simpl; sound_auto.
Qed.

Lemma sound_force_refresh_displays : sound R force_refresh_displays.
Proof.
  pose proof sound_call_ChangeDisplaySettings.
  pose proof sound_sleep.
  pose proof sound_reapply_modes.
  unfold force_refresh_displays. sound_auto.
Qed.

Lemma sound_clear_original_settings : sound R clear_original_settings.
Proof. unfold clear_original_settings. sound_auto. Qed.

Lemma sound_refresh_screens : sound R refresh_screens.
Proof.
  pose proof sound_call_rebuild_ui.
  unfold refresh_screens. sound_auto.
Qed.

Lemma sound_reset_displays : sound R reset_displays.
Proof.
  pose proof sound_force_refresh_displays.
  pose proof sound_sleep.
  pose proof sound_clear_original_settings.
  pose proof sound_refresh_screens.
  unfold reset_displays. sound_auto.
Qed.

Lemma sound_reconcile in_window m : sound R (reconcile in_window m).
Proof.
  pose proof (sound_is_monitor_on m).
  pose proof (sound_turn_off_screen m).
  pose proof sound_reset_displays.
  unfold reconcile. sound_auto.
Qed.

Lemma sound_check_widget now w : sound R (check_widget now w).
Proof.
  pose proof sound_reconcile.
  unfold check_widget. destruct now as [[h mi] s].
  destruct (Widget.auto_enabled w) as [[|]|]; sound_auto.
Qed.

Lemma sound_step_widget now w : sound R (step_widget now w).
Proof.
  pose proof sound_check_widget.
  unfold step_widget. sound_auto.
Qed.

End Frames.

(** The relations are preorders and accept the primitives they are meant
    for. *)
Section Sleeping.

Context {W : Type} `{Desktop W}.

(** A wait of less than 2^32-1 milliseconds: the call is logged, the
    desktop is the one the wait leaves, and the call returns. *)
Lemma sleep_run (ms : Z) (st : self W) :
  0 <= ms < 4294967295 ->
  sleep ms st
  = set_world (snd (time_sleep (world st) ms)) (snd (log (CallSleep ms) st)).
Proof.
  intros Hms. unfold sleep.
  replace ((ms <? -9223372036000) || (9223372036000 <? ms)) with false
    by (symmetry; apply orb_false_iff; split; apply Z.ltb_ge; lia).
  replace (ms <? 0) with false by (symmetry; apply Z.ltb_ge; lia).
  unfold bind, log, get, set_world, lift. cbn.
  rewrite sleep_returns by assumption. reflexivity.
Qed.

(** A duration that the interpreter refuses: no wait happens. *)
Lemma sleep_refused (ms : Z) (st : self W) :
  ms < 0 \/ 9223372036000 < ms ->
  sleep ms st
  = (Exc (if (ms <? -9223372036000) || (9223372036000 <? ms)
          then OverflowError else ValueError), st).
Proof.
  intros Hms. unfold sleep.
  destruct ((ms <? -9223372036000) || (9223372036000 <? ms)) eqn:E;
    [reflexivity|].
  apply orb_false_iff in E. destruct E as [E1 E2].
  apply Z.ltb_ge in E1, E2.
  replace (ms <? 0) with true by (symmetry; apply Z.ltb_lt; lia).
  reflexivity.
Qed.

End Sleeping.

Section Relations.

Context {W : Type} `{Desktop W}.

Lemma only_queries_refl (st : self W) : only_queries st st.
Proof. unfold only_queries; repeat split; auto. now exists []. Qed.

Lemma only_queries_trans (a b c : self W) :
  only_queries a b -> only_queries b c -> only_queries a c.
Proof.
  unfold only_queries.
  intros (?&?&?&?&?&?&c1&E1&Q1) (?&?&?&?&?&?&c2&E2&Q2).
  repeat split; try congruence.
  exists (c2 ++ c1)%list. split.
  - rewrite E2, E1. now rewrite app_assoc.
  - rewrite forallb_app. now rewrite Q1, Q2.
Qed.

Lemma only_queries_log e :
  is_query e = true -> sound only_queries (log (W := W) e).
Proof.
  intros He st; simpl; split; [discriminate|].
  unfold only_queries; simpl; repeat split; auto.
  exists [e]; simpl. now rewrite He.
Qed.

Lemma keeps_saved_refl (st : self W) : keeps_saved st st.
Proof. reflexivity. Qed.

Lemma keeps_saved_trans (a b c : self W) :
  keeps_saved a b -> keeps_saved b c -> keeps_saved a c.
Proof. unfold keeps_saved; congruence. Qed.

Lemma keeps_widgets_refl (st : self W) : keeps_widgets st st.
Proof. split; reflexivity. Qed.

Lemma keeps_widgets_trans (a b c : self W) :
  keeps_widgets a b -> keeps_widgets b c -> keeps_widgets a c.
Proof. unfold keeps_widgets; intros [? ?] [? ?]; split; congruence. Qed.

Lemma shrinks_refl (st : self W) : shrinks st st.
Proof. unfold shrinks; repeat split; auto. Qed.

Lemma shrinks_trans (a b c : self W) :
  shrinks a b -> shrinks b c -> shrinks a c.
Proof.
  unfold shrinks. intros (?&?&L1&S1) (?&?&L2&S2).
  repeat split; try congruence; try lia.
  intros loc Hloc. specialize (S1 loc Hloc).
  assert (loc < List.length (lists b))%nat as Hb by lia.
  specialize (S2 loc Hb). lia.
Qed.

Lemma length_replace_nth {A : Type} n (l : list A) a :
  List.length (replace_nth n l a) = List.length l.
Proof.
  revert n; induction l as [|b r IH]; intros [|n]; simpl; auto.
Qed.

Lemma nth_replace_nth_same {A : Type} n (l : list A) a d :
  (n < List.length l)%nat -> nth n (replace_nth n l a) d = a.
Proof.
  revert n; induction l as [|b r IH]; intros [|n]; simpl; intros Hn;
    try lia; auto. apply IH; lia.
Qed.

Lemma nth_replace_nth_other {A : Type} n k (l : list A) a d :
  n <> k -> nth k (replace_nth n l a) d = nth k l d.
Proof.
  revert n k; induction l as [|b r IH]; intros [|n] [|k]; simpl; intros Hn;
    try congruence; auto.
Qed.

Lemma shrinks_clear loc : sound shrinks (clear_list (W := W) loc).
Proof.
  intros st; simpl; split; [discriminate|].
  unfold shrinks, list_at; simpl. repeat split; auto.
  - rewrite length_replace_nth; lia.
  - intros k Hk. destruct (Nat.eq_dec loc k) as [->|Hne].
    + rewrite nth_replace_nth_same by assumption. simpl; lia.
    + rewrite nth_replace_nth_other by assumption. lia.
Qed.

Lemma shrinks_rebind l : sound shrinks (rebind_preview_widgets (W := W) l).
Proof.
  intros st; simpl; split; [discriminate|].
  unfold shrinks, list_at; simpl. repeat split; auto.
  - rewrite length_app; simpl; lia.
  - intros k Hk. rewrite app_nth1 by assumption. lia.
Qed.

End Relations.

Import Examples.

(** ** The blank window *)

(** C1: on seconds since midnight, the window test of the tick holds
    exactly when [start <= now <= end] for a window within one day
    ([start <= end]) and when [now >= start] or [now <= end] for a window
    that crosses midnight, both boundaries included; and this is the test
    the tick applies to the seconds computed as [hour*3600 + min*60 + sec]
    from the clock and from the widget's six time variables. *)
Theorem in_window_test :
  (forall start_total_sec end_total_sec current_total_sec : Z,
      in_sleep_time start_total_sec end_total_sec current_total_sec = true
      <-> (start_total_sec <= end_total_sec
           /\ start_total_sec <= current_total_sec <= end_total_sec)
          \/ (end_total_sec < start_total_sec
              /\ (current_total_sec >= start_total_sec
                  \/ current_total_sec <= end_total_sec)))
  /\ (forall (W : Type) (D : Desktop W) (m : monitor)
             (sh sm ss eh em es hour minute second : Z),
         check_widget (W := W) (hour, minute, second)
           {| Widget.auto_enabled := Some true;
              Widget.start_hour_var := Some (TkVar (Returns sh));
              Widget.start_min_var := Some (TkVar (Returns sm));
              Widget.start_sec_var := Some (TkVar (Returns ss));
              Widget.end_hour_var := Some (TkVar (Returns eh));
              Widget.end_min_var := Some (TkVar (Returns em));
              Widget.end_sec_var := Some (TkVar (Returns es));
              Widget.monitor := Some m |}
         = reconcile
             (in_sleep_time (sh * 3600 + sm * 60 + ss) (eh * 3600 + em * 60 + es)
                            (hour * 3600 + minute * 60 + second)) m).
Proof.
  split.
  - intros s e n. unfold in_sleep_time.
    destruct (Z.leb_spec s e).
    + rewrite andb_true_iff, !Z.leb_le. lia.
    + rewrite orb_true_iff, Z.geb_le, Z.leb_le. lia.
  - intros. reflexivity.
Qed.

(** The window 22:00:00 to 07:00:00 of the specification: 23:30:00 and
    07:00:00 are inside, 12:00:00 is outside. *)
Example window_across_midnight :
  in_sleep_time (total_sec 22 0 0) (total_sec 7 0 0) (total_sec 23 30 0) = true
  /\ in_sleep_time (total_sec 22 0 0) (total_sec 7 0 0) (total_sec 12 0 0) = false
  /\ in_sleep_time (total_sec 22 0 0) (total_sec 7 0 0) (total_sec 7 0 0) = true.
Proof. repeat split. Qed.

(** ** The stable key and the schedule store *)

Lemma contains_app c a b : contains c (a ++ String c b) = true.
Proof.
  induction a as [|c' a IH]; simpl.
  - now rewrite Ascii.eqb_refl.
  - rewrite IH. apply orb_true_r.
Qed.

(** A stable key is never the name of the [DEFAULT] section. *)
Lemma key_is_not_default (m : monitor) :
  String.eqb (get_monitor_config_key m) default_section = false.
Proof.
  destruct (String.eqb_spec (get_monitor_config_key m) default_section) as [E|]; auto.
  assert (contains "_" (get_monitor_config_key m) = true) as Hc
      by (unfold get_monitor_config_key; apply contains_app).
  rewrite E in Hc. discriminate Hc.
Qed.

Lemma load_monitor_config_returns (c : ConfigParser) (m : monitor) :
  exists e, load_monitor_config c m = Returns e.
Proof.
  unfold load_monitor_config.
  destruct (config_contains c (get_monitor_config_key m)); eauto.
  destruct (read_entry c (get_monitor_config_key m)); eauto.
Qed.

(** C5: for a stable key without a section in the parser, loading returns
    the default entry: disabled, start 17:00:00, end 07:00:00 (stored as the
    texts 17:0:0 and 7:0:0, which the widgets read back as these times).
    Loading returns an entry for every parser content and every monitor,
    in particular for the empty parser that an absent or unreadable file
    leaves. *)
Theorem load_default_entry (c : ConfigParser) (m : monitor) :
  has_section c (get_monitor_config_key m) = false ->
  load_monitor_config c m = Returns default_entry
  /\ auto_enabled default_entry = false
  /\ time_of_day "18" (start_time default_entry) = Returns (17, 0, 0)
  /\ time_of_day "07" (end_time default_entry) = Returns (7, 0, 0)
  /\ load_monitor_config empty_config m = Returns default_entry
  /\ (forall c' m', exists e, load_monitor_config c' m' = Returns e).
Proof.
  intros Hno. repeat split.
  - unfold load_monitor_config, config_contains.
    now rewrite key_is_not_default, Hno.
  - unfold load_monitor_config, config_contains.
    now rewrite key_is_not_default.
  - intros; apply load_monitor_config_returns.
Qed.

Lemma load_default_entry_witness :
  has_section config_bad_flag (get_monitor_config_key monitor_A) = false
  /\ load_monitor_config config_bad_flag monitor_A = Returns default_entry.
Proof.
  split; [reflexivity|].
  apply (load_default_entry config_bad_flag monitor_A). reflexivity.
Defined.

(** Text without a percent sign is its own interpolation. *)
Lemma interpolate_plain depth map n value :
  contains "%" value = false -> (String.length value <= n)%nat ->
  interpolate_some (S depth) map n value = Returns value.
Proof.
  revert value. induction n as [|n IH]; intros value Hc Hn.
  - destruct value; [reflexivity | simpl in Hn; lia].
  - destruct value as [|c r]; [reflexivity|].
    simpl in Hc. apply orb_false_iff in Hc as [Hc1 Hc2].
    simpl in Hn. assert (String.length r <= n)%nat as Hr by lia.
    specialize (IH r Hc2 Hr). simpl in IH |- *.
    assert (c <> "%"%char) as Hne
        by (intros ->; discriminate Hc1).
    assert (forall A (a b : A),
               match c with
               | "%"%char => a
               | _ => b
               end = b) as Hskip.
    { intros A a b.
      destruct c as [[|] [|] [|] [|] [|] [|] [|] [|]]; try reflexivity.
      now elim Hne. }
    rewrite Hskip. now rewrite IH.
Qed.

Lemma before_get_plain map value :
  contains "%" value = false -> before_get map value = Returns value.
Proof. intros Hc. now apply interpolate_plain. Qed.


(** A stored text with an escaped percent sign is not returned as stored:
    the parser's interpolation reads [5%%] as [5%]. *)
Lemma escaped_percent_is_read_as_percent :
  Dict.get (sections config_percent) (get_monitor_config_key monitor_B)
  = Some [("start_time", "5%%")]
  /\ load_monitor_config config_percent monitor_B
     = Returns {| auto_enabled := false; start_time := "5%";
                  end_time := "08:00:00" |}.
Proof. split; reflexivity. Qed.



(** The claim of C9 fails for the saved geometry: monitor B is blanked and
    its geometry is saved under the name of its device; when the driver hands
    the device another name, the monitor's record, its stable key and
    [original_settings] are what they were, yet the program no longer finds
    the saved geometry of the monitor. *)
Lemma saved_geometry_lost_on_rename :
  get_monitor_config_key monitor_B = "HP L1950_1280x1024"
  /\ original_settings night_renamed = original_settings night
  /\ lists night_renamed = lists night
  /\ map Sim.current (Sim.devices (world night_renamed))
     = map Sim.current (Sim.devices (world night))
  /\ map Sim.registry (Sim.devices (world night_renamed))
     = map Sim.registry (Sim.devices (world night))
  /\ fst (saved_geometry_of monitor_B night) = Val (Some geometry_B)
  /\ fst (saved_geometry_of monitor_B night_renamed) = Val None
  /\ fst (is_monitor_on monitor_B night) = Val false.
Proof. repeat split. Qed.

(** C9, amended: the stable key is a function of the monitor's name and
    resolution alone: two monitor records with the same name, width and
    height have the same key, whatever their index, position and the names
    of the operating system's devices, and the schedule entry loaded for
    them is the same.  (The saved geometry is bound to the device name, not
    to the key.) *)
Theorem stable_key_of_name_and_resolution (m m' : monitor) :
  Monitor.name m = Monitor.name m' ->
  Monitor.width m = Monitor.width m' ->
  Monitor.height m = Monitor.height m' ->
  get_monitor_config_key m = get_monitor_config_key m'
  /\ forall c, load_monitor_config c m = load_monitor_config c m'.
Proof.
  intros Hn Hw Hh.
  assert (get_monitor_config_key m = get_monitor_config_key m') as Hk
      by (unfold get_monitor_config_key; now rewrite Hn, Hw, Hh).
  split; [assumption|].
  intros c. unfold load_monitor_config. now rewrite Hk.
Qed.

Lemma stable_key_of_name_and_resolution_witness :
  monitor_B <> monitor_B_moved
  /\ get_monitor_config_key monitor_B = get_monitor_config_key monitor_B_moved
  /\ load_monitor_config config_bad_flag monitor_B
     = load_monitor_config config_bad_flag monitor_B_moved.
Proof.
  split; [discriminate|].
  destruct (stable_key_of_name_and_resolution monitor_B monitor_B_moved
              eq_refl eq_refl eq_refl) as [Hk Hl].
  split; [exact Hk | exact (Hl config_bad_flag)].
Defined.

(** ** Device-name resolution *)

Section Resolution.

Context {W : Type} `{Desktop W}.

Lemma queries_get_device_name_by_monitor (m : monitor) :
  sound only_queries (get_device_name_by_monitor (W := W) m).
Proof.
  apply sound_get_device_name_by_monitor.
  - exact only_queries_refl.
  - exact only_queries_trans.
  - exact only_queries_log.
Qed.

Lemma queries_probe_device (m : monitor) device :
  sound only_queries (probe_device (W := W) m device).
Proof.
  apply sound_probe_device.
  - exact only_queries_refl.
  - exact only_queries_trans.
  - exact only_queries_log.
Qed.

Lemma device_matches_only_queries (st st' : self W) m device :
  only_queries st st' -> device_matches st' m device = device_matches st m device.
Proof.
  intros (Hw & Hs & _). unfold device_matches. now rewrite Hw, Hs.
Qed.

Lemma probe_device_value (m : monitor) device (st : self W) :
  fst (probe_device m device st) = Val (device_matches st m device).
Proof.
  unfold probe_device, device_matches, call_EnumDisplaySettings,
    try_except, bind, log, get, lift, ret, raise; simpl.
  destruct (EnumDisplaySettings (world st) device ENUM_CURRENT_SETTINGS);
    simpl; [reflexivity|].
  destruct (EnumDisplaySettings (world st) device ENUM_REGISTRY_SETTINGS);
    simpl; reflexivity.
Qed.

Lemma find_same {A : Type} (f g : A -> bool) (l : list A) :
  (forall a, f a = g a) -> find f l = find g l.
Proof.
  intros E. induction l as [|a r IH]; simpl; [reflexivity|].
  now rewrite E, IH.
Qed.

(** The first device of the enumeration that passes the check. *)
Lemma find_device_value (m : monitor) devices i (st : self W) :
  fst (find_device m devices i st)
  = Val (option_map DeviceName
           (find (fun d => device_matches st m (DeviceName d)) devices)).
Proof.
  revert i st. induction devices as [|d rest IH]; intros i st.
  - reflexivity.
  - cbn [find_device find]. unfold bind at 1. cbn [log].
    unfold bind at 1.
    match goal with
    | |- context [probe_device m (DeviceName d) ?s] =>
        pose proof (probe_device_value m (DeviceName d) s) as Hv;
        destruct (queries_probe_device m (DeviceName d) s) as [_ Hq];
        destruct (probe_device m (DeviceName d) s) as [r st1];
        assert (only_queries st s) as Hlog
            by (apply (only_queries_log (CallEnumDisplayDevices i) eq_refl st))
    end.
    simpl in Hv, Hq. subst r.
    rewrite (device_matches_only_queries m (DeviceName d) Hlog).
    destruct (device_matches st m (DeviceName d)); [reflexivity|].
    rewrite IH.
    assert (only_queries st st1) as Hall by (eapply only_queries_trans; eauto).
    do 2 f_equal. apply find_same. intros d'.
    now apply device_matches_only_queries.
Qed.

(** What the resolution answers: the name of the first device that passes
    the check, else the name of the device whose index is the monitor's
    [id] minus one, else nothing. *)
Lemma get_device_name_by_monitor_value (m : monitor) (st : self W) :
  fst (get_device_name_by_monitor m st)
  = Val (match find (fun d => device_matches st m (DeviceName d))
                    (display_devices (world st)) with
         | Some d => Some (DeviceName d)
         | None =>
             match EnumDisplayDevices (world st) (Monitor.id m - 1) with
             | Returns d => Some (DeviceName d)
             | Raises _ => None
             end
         end).
Proof.
  unfold get_device_name_by_monitor, try_except at 1.
  unfold bind at 1. cbn [get]. unfold bind at 1.
  pose proof (find_device_value m (display_devices (world st)) 0 st) as Hv.
  destruct (sound_find_device (only_queries_refl (W := W))
              (only_queries_trans (W := W)) (only_queries_log (W := W))
              m (display_devices (world st)) 0 st) as [_ (Hw & _)].
  destruct (find_device m (display_devices (world st)) 0 st) as [r st1].
  simpl in Hv, Hw. subst r.
  destruct (find (fun d => device_matches st m (DeviceName d))
                 (display_devices (world st))) as [d|]; simpl; [reflexivity|].
  unfold try_except, call_EnumDisplayDevices, bind, log, get, lift, ret, raise;
    simpl.
  rewrite Hw.
  destruct (EnumDisplayDevices (world st) (Monitor.id m - 1)); reflexivity.
Qed.

(** The resolution always returns. *)
Lemma get_device_name_by_monitor_returns (m : monitor) (st : self W) :
  exists r st',
    get_device_name_by_monitor m st = (Val r, st') /\ only_queries st st'.
Proof.
  pose proof (get_device_name_by_monitor_value m st) as Hv.
  destruct (queries_get_device_name_by_monitor m st) as [_ Hq].
  destruct (get_device_name_by_monitor m st) as [r st']. simpl in *.
  subst r. eauto.
Qed.

End Resolution.

(** The claim of C6 fails when no device matches: the only device shows
    1280x720, monitor A is 1920x1080, no check succeeds, and the resolution
    still answers a device: the one at index [id - 1]. *)
Lemma resolution_falls_back_to_index :
  forallb (fun d => negb (device_matches mismatch monitor_A (DeviceName d)))
          (display_devices (world mismatch)) = true
  /\ original_settings mismatch = None
  /\ fst (get_device_name_by_monitor monitor_A mismatch) = Val (Some display1).
Proof. repeat split. Qed.

(** C6, amended: device-name resolution only queries the desktop (the state
    of the controller and the desktop are left as they were).  It answers
    the name of the first enumerated device whose current mode equals the
    monitor's position and size -- or, when the query of the current mode
    raises, whose registry mode does, or, when that query raises too, whose
    saved geometry does.  When no device passes, it answers the name of the
    device at index [id - 1], and nothing only when there is no such
    device. *)
Theorem resolution_is_a_query (W : Type) (D : Desktop W) (m : monitor)
    (st : self W) :
  only_queries st (snd (get_device_name_by_monitor m st))
  /\ fst (get_device_name_by_monitor m st)
     = Val (match find (fun d => device_matches st m (DeviceName d))
                       (display_devices (world st)) with
            | Some d => Some (DeviceName d)
            | None =>
                match EnumDisplayDevices (world st) (Monitor.id m - 1) with
                | Returns d => Some (DeviceName d)
                | Raises _ => None
                end
            end).
Proof.
  split.
  - apply queries_get_device_name_by_monitor.
  - apply get_device_name_by_monitor_value.
Qed.

(** ** The state query *)

(** C3: [is_monitor_on] answers [True] when the resolution gives no device
    name (nothing, or an empty name); otherwise [False] when
    [original_settings] has an entry for the resolved device, without asking
    for the mode; otherwise [True] exactly when the query of the current mode
    returns a mode of non-zero width and height, and [False] when that query
    raises.  The resolution itself always returns. *)
Theorem is_monitor_on_value (W : Type) (D : Desktop W) (m : monitor)
    (st : self W) :
  (exists r, fst (get_device_name_by_monitor m st) = Val r)
  /\ fst (is_monitor_on m st)
     = Val (match fst (get_device_name_by_monitor m st) with
            | Val (Some dn) =>
                if String.eqb dn "" then true
                else if has_saved st dn then false
                else match EnumDisplaySettings (world st) dn ENUM_CURRENT_SETTINGS with
                     | Returns current_settings =>
                         negb (PelsWidth current_settings =? 0)%N
                         && negb (PelsHeight current_settings =? 0)%N
                     | Raises _ => false
                     end
            | _ => true
            end).
Proof.
  destruct (get_device_name_by_monitor_returns m st) as (r & st' & E & Hq).
  split; [exists r; now rewrite E|].
  unfold is_monitor_on, try_except at 1. unfold bind at 1. rewrite E. simpl.
  destruct Hq as (Hw & Hs & _).
  destruct r as [dn|]; [|reflexivity].
  destruct (String.eqb dn ""); [reflexivity|].
  unfold bind at 1. cbn [get].
  assert (has_saved st' dn = has_saved st dn) as ->
      by (unfold has_saved; now rewrite Hs).
  destruct (has_saved st dn); [reflexivity|].
  unfold try_except, call_EnumDisplaySettings, bind, log, get, lift, ret, raise;
    simpl.
  rewrite Hw.
  destruct (EnumDisplaySettings (world st) dn ENUM_CURRENT_SETTINGS) as [cs|];
    simpl; [|reflexivity].
  do 2 f_equal.
  - destruct (PelsWidth cs); reflexivity.
  - destruct (PelsHeight cs); reflexivity.
Qed.

(** ** Blanking *)

Section Blanking.

Context {W : Type} `{Desktop W}.

Lemma keeps_saved_log e : sound keeps_saved (log (W := W) e).
Proof. intros st; simpl; split; [discriminate | reflexivity]. Qed.

Lemma keeps_saved_world w : sound keeps_saved (set_world (W := W) w).
Proof. intros st; simpl; split; [discriminate | reflexivity]. Qed.

Lemma keeps_saved_clear loc : sound keeps_saved (clear_list (W := W) loc).
Proof. intros st; simpl; split; [discriminate | reflexivity]. Qed.

Lemma keeps_saved_rebind l :
  sound keeps_saved (rebind_preview_widgets (W := W) l).
Proof. intros st; simpl; split; [discriminate | reflexivity]. Qed.

(** [turn_off_screen] has no guard: when the monitor resolves to a device
    and the query of its current mode returns, that mode is what
    [original_settings] holds for the device afterwards, whatever was
    saved before and whatever the mode is. *)
Lemma turn_off_screen_records_current_mode (m : monitor) (st : self W)
    dn current_settings :
  fst (get_device_name_by_monitor m st) = Val (Some dn) ->
  dn <> "" ->
  EnumDisplaySettings (world st) dn ENUM_CURRENT_SETTINGS
  = Returns current_settings ->
  match original_settings (snd (turn_off_screen m st)) with
  | Some d => Dict.get d dn = Some (geometry_of current_settings)
  | None => False
  end.
Proof.
  intros Hr Hne Hq.
  destruct (get_device_name_by_monitor_returns m st) as (r & st1 & E & Hq1).
  rewrite E in Hr. simpl in Hr. injection Hr as ->.
  destruct Hq1 as (Hw & Hs & _).
  assert (unresolved (Some dn) = false) as Hu.
  { simpl. destruct (String.eqb_spec dn ""); congruence. }
  pose (rest := fun cs : DEVMODE =>
          (result <- call_ChangeDisplaySettingsEx dn (blank_mode cs) 0 ;;
           if result =? DISP_CHANGE_SUCCESSFUL then ret tt
           else call_showerror (W := W) (BlankFailedWithCode result))).
  assert (forall cs, sound keeps_saved (rest cs)) as Hrest.
  { intros cs. unfold rest.
    pose proof (sound_call_ChangeDisplaySettingsEx (@keeps_saved_refl W)
                  (@keeps_saved_trans W) keeps_saved_log keeps_saved_world).
    pose proof (sound_call_showerror (@keeps_saved_refl W)
                  (@keeps_saved_trans W) keeps_saved_log keeps_saved_world).
    pose proof (@keeps_saved_refl W). pose proof (@keeps_saved_trans W).
    sound_auto. }
  pose (st2 :=
          {| world := world st;
             trace := CallEnumDisplaySettings dn ENUM_CURRENT_SETTINGS :: trace st1;
             original_settings :=
               Some (Dict.set (match original_settings st1 with
                               | Some d => d
                               | None => Dict.empty
                               end) dn (geometry_of current_settings));
             lists := lists st1; preview_widgets := preview_widgets st1;
             auto_screen_timer_running := auto_screen_timer_running st1;
             detection_interval := detection_interval st1 |}).
  assert (turn_off_screen m st
          = try_except (rest current_settings)
              (fun e => call_showerror (BlankFailed e)) st2) as ->.
  { unfold turn_off_screen, try_except. unfold bind at 1. rewrite E, Hu.
    unfold bind at 1, call_EnumDisplaySettings. unfold bind at 1. cbn [log].
    unfold bind at 1. cbn [get world lift]. rewrite Hw, Hq. reflexivity. }
  unfold try_except.
  destruct (Hrest current_settings st2) as [Hf Hk]. unfold keeps_saved in Hk.
  destruct (rest current_settings st2) as [[[]|e|] st3]; simpl in Hf, Hk |- *.
  - rewrite Hk. apply Dict_get_set_same.
  - destruct (sound_call_showerror (@keeps_saved_refl W) (@keeps_saved_trans W)
                keeps_saved_log keeps_saved_world (BlankFailed e) st3) as [_ Hk2].
    unfold keeps_saved in Hk2. rewrite Hk2, Hk. apply Dict_get_set_same.
  - now elim Hf.
Qed.

End Blanking.

(** C4: the code overwrites.  At night monitor B is blanked, its device
    shows the zero-size mode and its geometry 1280x1024 is saved;
    [turn_off_screen] on B (a second press of the manual button) resolves the
    device by index, reads the zero-size mode and stores it over the saved
    geometry. *)
Theorem blank_twice_overwrites_saved_geometry :
  fst (is_monitor_on monitor_B night) = Val false
  /\ original_settings night = Some [(display2, geometry_B)]
  /\ original_settings (snd (turn_off_screen monitor_B night))
     = Some [(display2,
              {| Saved.width := 0; Saved.height := 0;
                 Saved.position_x := 1920; Saved.position_y := 0 |})].
Proof. repeat split. Qed.

(** ** Restoring *)

Section Restoring.

Context {W : Type} `{Desktop W}.

Lemma trace_grows_refl (st : self W) : trace_grows st st.
Proof. now exists []. Qed.

Lemma trace_grows_trans (a b c : self W) :
  trace_grows a b -> trace_grows b c -> trace_grows a c.
Proof.
  intros [l1 E1] [l2 E2]. exists (l2 ++ l1)%list.
  rewrite E2, E1. now rewrite app_assoc.
Qed.

Lemma trace_grows_log e : sound trace_grows (log (W := W) e).
Proof. intros st; simpl; split; [discriminate | now exists [e]]. Qed.

Lemma trace_grows_world w : sound trace_grows (set_world (W := W) w).
Proof. intros st; simpl; split; [discriminate | now exists []]. Qed.

(** A [try] whose handler returns a value always returns. *)
Lemma try_ret_returns {A : Type} (R : self W -> self W -> Prop)
    (m : M W A) (d : A) :
  sound R m ->
  forall st, exists a st', try_except m (fun _ => ret d) st = (Val a, st').
Proof.
  intros Hm st. unfold try_except, ret. destruct (Hm st) as [Hf _].
  destruct (m st) as [[a|e|] st']; simpl in *; eauto. now elim Hf.
Qed.

Lemma keeps_saved_force_refresh_displays :
  sound keeps_saved (force_refresh_displays (W := W)).
Proof.
  apply sound_force_refresh_displays.
  - exact keeps_saved_refl.
  - exact keeps_saved_trans.
  - intros e _. apply keeps_saved_log.
  - exact keeps_saved_log.
  - exact keeps_saved_world.
Qed.

Lemma keeps_saved_refresh_screens :
  sound keeps_saved (refresh_screens (W := W)).
Proof.
  apply sound_refresh_screens.
  - exact keeps_saved_refl.
  - exact keeps_saved_trans.
  - exact keeps_saved_log.
  - exact keeps_saved_world.
  - exact keeps_saved_clear.
  - exact keeps_saved_rebind.
Qed.

(** [force_refresh_displays] always answers [True] or [False]. *)
Lemma force_refresh_displays_returns (st : self W) :
  exists b st', force_refresh_displays st = (Val b, st').
Proof.
  unfold force_refresh_displays.
  eapply try_ret_returns with (R := keeps_saved).
  pose proof (sound_call_ChangeDisplaySettings keeps_saved_refl
                (keeps_saved_trans (W := W)) keeps_saved_log keeps_saved_world).
  pose proof (sound_sleep keeps_saved_refl
                (keeps_saved_trans (W := W)) keeps_saved_log keeps_saved_world).
  pose proof (sound_reapply_modes keeps_saved_refl
                (keeps_saved_trans (W := W))
                (fun e _ => keeps_saved_log e) keeps_saved_log keeps_saved_world).
  pose proof (keeps_saved_refl (W := W)).
  pose proof (keeps_saved_trans (W := W)).
  sound_auto.
Qed.

(** Its first call on the desktop is [ChangeDisplaySettings(None, 0)]. *)
Lemma force_refresh_displays_first_call (st : self W) :
  starts_with CallChangeDisplaySettings st (snd (force_refresh_displays st)).
Proof.
  pose (tail :=
          try_except
            (result <- (st0 <- get (W := W) ;;
                        set_world (snd (ChangeDisplaySettings (world st0))) ;;
                        lift (fst (ChangeDisplaySettings (world st0)))) ;;
             if result =? DISP_CHANGE_SUCCESSFUL then ret true
             else
               sleep 200 ;;
               st0 <- get ;;
               refreshed_count <- reapply_modes (display_devices (world st0)) 0 0 ;;
               ret (Nat.ltb 0 refreshed_count))
            (fun _ => ret false)).
  assert (force_refresh_displays st
          = tail (snd (log CallChangeDisplaySettings st))) as -> by reflexivity.
  assert (sound trace_grows tail) as Ht.
  { pose proof (sound_sleep trace_grows_refl
                  trace_grows_trans trace_grows_log trace_grows_world).
    pose proof (sound_reapply_modes trace_grows_refl
                  trace_grows_trans
                  (fun e _ => trace_grows_log e) trace_grows_log trace_grows_world).
    pose proof trace_grows_refl.
    pose proof trace_grows_trans.
    pose proof trace_grows_world.
    subst tail. sound_auto. }
  destruct (Ht (snd (log CallChangeDisplaySettings st))) as [_ [later E]].
  exists later. rewrite E. reflexivity.
Qed.

(** [reset_displays] always returns.  When the refresh answers [False],
    nothing else is done: the state is the one the refresh left, with the
    saved geometries as they were.  When it answers [True], every saved
    geometry is dropped. *)
Lemma reset_displays_run (st : self W) :
  fst (reset_displays st) = Val tt
  /\ (fst (force_refresh_displays st) = Val false ->
      snd (reset_displays st) = snd (force_refresh_displays st)
      /\ original_settings (snd (reset_displays st)) = original_settings st)
  /\ (fst (force_refresh_displays st) = Val true ->
      original_settings (snd (reset_displays st))
      = option_map (fun _ => Dict.empty) (original_settings st)).
Proof.
  destruct (force_refresh_displays_returns st) as (b & st1 & E).
  destruct (keeps_saved_force_refresh_displays st) as [_ Hk].
  rewrite E in Hk |- *. unfold keeps_saved in Hk. simpl in Hk.
  remember (reset_displays st) as r eqn:Er.
  unfold reset_displays, try_except, bind in Er. rewrite E in Er.
  destruct b.
  - rewrite sleep_run in Er by lia.
    unfold clear_original_settings, bind, log, get, set_world,
      set_original_settings, ret, raise in Er.
    cbn -[refresh_screens] in Er. rewrite Hk in Er.
    destruct (original_settings st) as [d|] eqn:Eo;
      cbn -[refresh_screens] in Er;
      match type of Er with
      | context [refresh_screens ?s] =>
          destruct (keeps_saved_refresh_screens s) as [Hf Hr];
          destruct (refresh_screens s) as [[[]|e|] st3]
      end;
      unfold keeps_saved in Hr; simpl in Hf, Hr; try (now elim Hf);
      subst r; simpl;
      (split; [reflexivity | split; [discriminate | intros _; congruence]]).
  - subst r. simpl. split; [reflexivity|]. split; [auto | discriminate].
Qed.

End Restoring.

(** The claim of C2 fails when the refresh fails.  In the morning, outside
    B's window, B is blanked with its geometry saved, and the desktop refuses
    every change.  The tick calls the global refresh, which answers [False],
    and stops there: the saved geometry is kept and no mode is applied to B's
    device.  [restore_all_screens], from the same state, does apply the saved
    geometry to B's device. *)
Lemma tick_does_not_replay_saved_geometry :
  Widget.auto_enabled widget_B = Some true
  /\ in_sleep_time (total_sec 20 0 0) (total_sec 6 0 0) (total_sec 6 30 0) = false
  /\ fst (is_monitor_on monitor_B morning_refused) = Val false
  /\ existsb is_global_refresh
       (trace (snd (check_auto_screen_off morning_refused))) = true
  /\ existsb (applies_mode_to display2)
       (trace (snd (check_auto_screen_off morning_refused))) = false
  /\ original_settings (snd (check_auto_screen_off morning_refused))
     = Some [(display2, geometry_B)]
  /\ In (CallChangeDisplaySettingsEx display2
           (restored_mode (mode 1920 0 0 0) geometry_B) CDS_UPDATEREGISTRY)
        (trace (snd (restore_all_screens morning_refused))).
Proof.
  do 6 (split; [vm_compute; reflexivity|]).
  vm_compute. now left.
Qed.

(** C2, amended: when the tick finds an enabled monitor outside its window
    and blanked, what it does for it is [reset_displays], a restore of the
    whole desktop and not of that monitor: the first call is the global
    refresh [ChangeDisplaySettings(None, 0)] of [force_refresh_displays],
    which answers [True] or [False].  On [True] the saved geometry of every
    device is dropped; on [False] nothing else is done in this tick: the
    saved geometries stay and none is replayed. *)
Theorem tick_restores_by_global_refresh (W : Type) (D : Desktop W)
    (m : monitor) (sh sm ss eh em es hour minute second : Z) (st : self W) :
  in_sleep_time (total_sec sh sm ss) (total_sec eh em es)
                (total_sec hour minute second) = false ->
  fst (is_monitor_on m st) = Val false ->
  check_widget (hour, minute, second)
    {| Widget.auto_enabled := Some true;
       Widget.start_hour_var := Some (TkVar (Returns sh));
       Widget.start_min_var := Some (TkVar (Returns sm));
       Widget.start_sec_var := Some (TkVar (Returns ss));
       Widget.end_hour_var := Some (TkVar (Returns eh));
       Widget.end_min_var := Some (TkVar (Returns em));
       Widget.end_sec_var := Some (TkVar (Returns es));
       Widget.monitor := Some m |} st
  = reset_displays (snd (is_monitor_on m st))
  /\ fst (reset_displays (snd (is_monitor_on m st))) = Val tt
  /\ starts_with CallChangeDisplaySettings (snd (is_monitor_on m st))
       (snd (force_refresh_displays (snd (is_monitor_on m st))))
  /\ (exists b, fst (force_refresh_displays (snd (is_monitor_on m st))) = Val b)
  /\ (fst (force_refresh_displays (snd (is_monitor_on m st))) = Val true ->
      original_settings (snd (reset_displays (snd (is_monitor_on m st))))
      = option_map (fun _ => Dict.empty)
                   (original_settings (snd (is_monitor_on m st))))
  /\ (fst (force_refresh_displays (snd (is_monitor_on m st))) = Val false ->
      snd (reset_displays (snd (is_monitor_on m st)))
      = snd (force_refresh_displays (snd (is_monitor_on m st)))
      /\ original_settings (snd (reset_displays (snd (is_monitor_on m st))))
         = original_settings (snd (is_monitor_on m st))).
Proof.
  intros Hout Hoff.
  destruct (reset_displays_run (snd (is_monitor_on m st))) as (Hv & Hfalse & Htrue).
  repeat match goal with |- _ /\ _ => split end; auto.
  - change (reconcile
              (in_sleep_time (total_sec sh sm ss) (total_sec eh em es)
                             (total_sec hour minute second)) m st
            = reset_displays (snd (is_monitor_on m st))).
    rewrite Hout. unfold reconcile, bind.
    destruct (is_monitor_on m st) as [r st0]. simpl in Hoff |- *.
    now rewrite Hoff.
  - apply force_refresh_displays_first_call.
  - destruct (force_refresh_displays_returns (snd (is_monitor_on m st)))
      as (b & st' & E).
    exists b. now rewrite E.
Qed.

Lemma tick_restores_by_global_refresh_witness :
  in_sleep_time (total_sec 20 0 0) (total_sec 6 0 0) (total_sec 6 30 0) = false
  /\ fst (is_monitor_on monitor_B morning) = Val false
  /\ check_widget (6, 30, 0) widget_B morning
     = reset_displays (snd (is_monitor_on monitor_B morning)).
Proof.
  split; [reflexivity|]. split; [reflexivity|].
  apply (tick_restores_by_global_refresh Sim.desktop_is_Desktop monitor_B
           20 0 0 6 0 0 6 30 0 morning); reflexivity.
Defined.

(** ** The tick *)

Section Tick.

Context {W : Type} `{Desktop W}.

Lemma shrinks_log e : sound shrinks (log (W := W) e).
Proof.
  intros st; simpl; split; [discriminate|].
  unfold shrinks, list_at; simpl; repeat split; auto.
Qed.

Lemma shrinks_world w : sound shrinks (set_world (W := W) w).
Proof.
  intros st; simpl; split; [discriminate|].
  unfold shrinks, list_at; simpl; repeat split; auto.
Qed.

Lemma shrinks_saved o : sound shrinks (set_original_settings (W := W) o).
Proof.
  intros st; simpl; split; [discriminate|].
  unfold shrinks, list_at; simpl; repeat split; auto.
Qed.

Lemma shrinks_step_widget now w : sound shrinks (step_widget (W := W) now w).
Proof.
  apply sound_step_widget.
  - exact shrinks_refl.
  - exact shrinks_trans.
  - intros e _. apply shrinks_log.
  - exact shrinks_log.
  - exact shrinks_world.
  - exact shrinks_saved.
  - exact shrinks_clear.
  - exact shrinks_rebind.
Qed.

Lemma shrinks_check_widget now w : sound shrinks (check_widget (W := W) now w).
Proof.
  apply sound_check_widget.
  - exact shrinks_refl.
  - exact shrinks_trans.
  - intros e _. apply shrinks_log.
  - exact shrinks_log.
  - exact shrinks_world.
  - exact shrinks_saved.
  - exact shrinks_clear.
  - exact shrinks_rebind.
Qed.

(** A step of the loop returns, whatever the widget's check does. *)
Lemma step_widget_run now w (st : self W) :
  step_widget now w st = (Val tt, snd (check_widget now w st)).
Proof.
  unfold step_widget, try_except.
  destruct (shrinks_check_widget now w st) as [Hf _].
  destruct (check_widget now w st) as [[[]|e|] st']; simpl in *;
    try reflexivity. now elim Hf.
Qed.

(** With as many steps as the list is long, the loop ends by itself. *)
Lemma for_widgets_ends now loc fuel :
  forall idx (st : self W),
    (loc < List.length (lists st))%nat ->
    (List.length (list_at st loc) <= idx + fuel)%nat ->
    fst (for_widgets fuel loc idx now st) = Val tt
    /\ shrinks st (snd (for_widgets fuel loc idx now st)).
Proof.
  induction fuel as [|fuel IH]; intros idx st Hloc Hlen.
  - cbn [for_widgets].
    destruct (nth_error (list_at st loc) idx) as [w|] eqn:E.
    + assert (idx < List.length (list_at st loc))%nat
        by (apply nth_error_Some; congruence). lia.
    + split; [reflexivity | apply shrinks_refl].
  - cbn [for_widgets].
    destruct (nth_error (list_at st loc) idx) as [w|] eqn:E.
    + unfold bind. rewrite step_widget_run.
      destruct (shrinks_check_widget now w st) as [_ Hs].
      set (st1 := snd (check_widget now w st)) in *.
      destruct Hs as (Hr & Hi & Hl & Hsh).
      destruct (@IH (S idx) st1) as [Hv Hs1].
      * lia.
      * specialize (Hsh loc Hloc). lia.
      * split; [assumption|].
        eapply shrinks_trans; [|exact Hs1]. repeat split; assumption.
    + split; [reflexivity | apply shrinks_refl].
Qed.

Lemma list_at_in_range (st : self W) loc :
  list_at st loc <> [] -> (loc < List.length (lists st))%nat.
Proof.
  intros Hne. destruct (Nat.lt_ge_cases loc (List.length (lists st))); auto.
  elim Hne. unfold list_at. now apply nth_overflow.
Qed.

(** The tick always returns, and leaves the timer's flag and interval as
    they were. *)
Lemma check_auto_screen_off_run (st : self W) :
  fst (check_auto_screen_off st) = Val tt
  /\ shrinks st (snd (check_auto_screen_off st)).
Proof.
  remember (check_auto_screen_off st) as r eqn:Er.
  unfold check_auto_screen_off, try_except, bind, get in Er.
  cbn beta iota in Er.
  destruct (preview_widgets st) as [loc|].
  - destruct (list_at st loc) as [|w0 ws] eqn:El.
    + subst r. simpl. split; [reflexivity | apply shrinks_refl].
    + unfold call_now, bind, log, get, ret in Er. cbn beta iota in Er.
      match type of Er with
      | context [for_widgets ?f loc ?i ?now ?s] =>
          destruct (@for_widgets_ends now loc f i s) as [Hv Hs];
          [ simpl; apply list_at_in_range; rewrite El; discriminate
          | unfold list_at; simpl; fold (list_at st loc); rewrite El; simpl; lia
          | destruct (for_widgets f loc i now s) as [[[]|e|] st'];
            simpl in Hv, Hs; try discriminate Hv ]
      end.
      subst r. simpl. split; [reflexivity|].
      eapply shrinks_trans; [|exact Hs].
      apply (shrinks_log CallNow st).
  - subst r. simpl. split; [reflexivity | apply shrinks_refl].
Qed.

End Tick.

Section Skipping.

Context {W : Type} `{Desktop W}.

(** The widgets on which the tick does nothing: the flag is [False] or
    missing. *)
Lemma step_widget_disabled now w (st : self W) :
  Widget.auto_enabled w <> Some true ->
  step_widget now w st = (Val tt, st).
Proof.
  intros Hd. unfold step_widget, try_except, check_widget.
  destruct now as [[hour minute] second].
  destruct (Widget.auto_enabled w) as [[|]|]; try reflexivity.
  now elim Hd.
Qed.

Lemma for_widgets_all_disabled now loc fuel :
  forall idx (st : self W),
    Forall (fun w => Widget.auto_enabled w <> Some true) (list_at st loc) ->
    (List.length (list_at st loc) <= idx + fuel)%nat ->
    for_widgets fuel loc idx now st = (Val tt, st).
Proof.
  induction fuel as [|fuel IH]; intros idx st Hall Hlen; cbn [for_widgets];
    destruct (nth_error (list_at st loc) idx) as [w|] eqn:E; try reflexivity.
  - assert (idx < List.length (list_at st loc))%nat
      by (apply nth_error_Some; congruence). lia.
  - unfold bind. rewrite step_widget_disabled.
    + apply IH; [assumption | lia].
    + rewrite Forall_forall in Hall. apply Hall.
      eapply nth_error_In; eassumption.
Qed.

Lemma keeps_widgets_log e : sound keeps_widgets (log (W := W) e).
Proof. intros st; simpl; split; [discriminate | split; reflexivity]. Qed.

Lemma keeps_widgets_world w : sound keeps_widgets (set_world (W := W) w).
Proof. intros st; simpl; split; [discriminate | split; reflexivity]. Qed.

Lemma keeps_widgets_saved o :
  sound keeps_widgets (set_original_settings (W := W) o).
Proof. intros st; simpl; split; [discriminate | split; reflexivity]. Qed.








End Skipping.

(** The claim of C7 fails for a tick that restores.  In the morning monitor
    A, whose widget is disabled, is blanked by hand and B, enabled and
    outside its window, is blanked too.  Before the tick A is reported off;
    the tick restores the whole desktop for B and drops every saved geometry;
    after it A is reported on. *)
Lemma disabled_monitor_woken_by_restore :
  Widget.auto_enabled widget_A = Some false
  /\ Widget.monitor widget_A = Some monitor_A
  /\ list_at morning 0 = [widget_A; widget_B]
  /\ fst (is_monitor_on monitor_A morning) = Val false
  /\ fst (is_monitor_on monitor_A (snd (check_auto_screen_off morning))) = Val true
  /\ original_settings morning = Some [(display1, geometry_A); (display2, geometry_B)]
  /\ original_settings (snd (check_auto_screen_off morning)) = Some [].
Proof. repeat (split; [vm_compute; reflexivity|]). vm_compute; reflexivity. Qed.

(** C7, amended: in a tick the step for a widget whose flag is not set does
    nothing at all: no call on the desktop, no change of the state, and the
    loop goes on to the next widget; a tick over widgets none of which is
    enabled only reads the clock.  (The monitor of a disabled widget can
    still be woken in a tick, by the restore of the whole desktop that an
    enabled monitor triggers.) *)
Theorem disabled_widget_is_skipped (W : Type) (D : Desktop W) :
  (forall now w (st : self W),
      Widget.auto_enabled w <> Some true ->
      step_widget now w st = (Val tt, st)
      /\ forall fuel loc idx,
          nth_error (list_at st loc) idx = Some w ->
          for_widgets (S fuel) loc idx now st
          = for_widgets fuel loc (S idx) now st)
  /\ (forall (st : self W) loc,
         preview_widgets st = Some loc ->
         list_at st loc <> [] ->
         Forall (fun w => Widget.auto_enabled w <> Some true) (list_at st loc) ->
         check_auto_screen_off st = (Val tt, snd (log CallNow st))).
Proof.
  split.
  - intros now w st Hd. split; [now apply step_widget_disabled|].
    intros fuel loc idx E. cbn [for_widgets]. rewrite E.
    unfold bind. now rewrite step_widget_disabled.
  - intros st loc Hp Hne Hall.
    unfold check_auto_screen_off, try_except, bind, get. cbn beta iota.
    rewrite Hp. destruct (list_at st loc) as [|w0 ws] eqn:El; [now elim Hne|].
    unfold call_now, bind, log, get, ret. cbn beta iota.
    rewrite for_widgets_all_disabled.
    + reflexivity.
    + unfold list_at in *. simpl. now rewrite El.
    + unfold list_at in *. simpl. rewrite El. simpl. lia.
Qed.

Lemma disabled_widget_is_skipped_witness :
  Widget.auto_enabled widget_A <> Some true
  /\ step_widget (21, 0, 0) widget_A (Sim.controller evening [widget_A; widget_B])
     = (Val tt, Sim.controller evening [widget_A; widget_B]).
Proof.
  split; [discriminate|].
  apply (proj1 (disabled_widget_is_skipped Sim.desktop_is_Desktop)).
  discriminate.
Defined.




(** ** Integers as text *)

Lemma digits_value_digit acc after_digit c r :
  is_digit c = true ->
  digits_value acc after_digit (String c r)
  = digits_value (10 * acc + digit_value c) true r.
Proof. intros Hd. cbn [digits_value]. now rewrite Hd. Qed.

Ltac eval_digit :=
  rewrite digits_value_digit by reflexivity;
  match goal with
  | |- context [digit_value ?c] =>
      let v := eval vm_compute in (digit_value c) in
      change (digit_value c) with v
  end.

Lemma digits_value_uint_acc (u : Decimal.uint) :
  forall p : positive,
    digits_value (Z.pos p) true (NilEmpty.string_of_uint u)
    = Some (Z.pos (Pos.of_uint_acc u p)).
Proof.
  induction u; intros p;
    cbn [NilEmpty.string_of_uint Pos.of_uint_acc]; try reflexivity;
    eval_digit; rewrite <- IHu; f_equal; lia.
Qed.

Lemma digits_value_uint (u : Decimal.uint) :
  digits_value 0 true (NilEmpty.string_of_uint u)
  = Some (Z.of_N (Pos.of_uint u)).
Proof.
  induction u;
    cbn [NilEmpty.string_of_uint Pos.of_uint]; try reflexivity;
    eval_digit; cbn [Z.mul Z.add]; try assumption;
    rewrite digits_value_uint_acc; reflexivity.
Qed.

(** The text of a positive number: digits, the first of which starts no
    sign and no white space. *)
Lemma digits_of_positive (p : positive) :
  digits_value 0 false (NilEmpty.string_of_uint (Pos.to_uint p))
  = Some (Z.pos p).
Proof.
  pose proof (digits_value_uint (Pos.to_uint p)) as Hd.
  rewrite DecimalPos.Unsigned.of_to in Hd.
  pose proof (DecimalPos.Unsigned.to_uint_nonnil p) as Hn.
  destruct (Pos.to_uint p); try (now elim Hn);
    cbn [NilEmpty.string_of_uint] in Hd |- *;
    rewrite digits_value_digit in Hd |- * by reflexivity; exact Hd.
Qed.

Lemma rstrip_keeps c r :
  is_space c = false -> rstrip r = r -> rstrip (String c r) = String c r.
Proof.
  intros Hc Hr. change (rstrip (String c r))
    with (match rstrip r with
          | EmptyString => if is_space c then EmptyString else String c EmptyString
          | r' => String c r'
          end).
  rewrite Hr, Hc. now destruct r.
Qed.

Lemma no_space_in_digits (u : Decimal.uint) :
  rstrip (NilEmpty.string_of_uint u) = NilEmpty.string_of_uint u.
Proof.
  induction u; cbn [NilEmpty.string_of_uint]; try reflexivity;
    apply rstrip_keeps; auto.
Qed.

(** [int(str(n)) == n] *)
Lemma py_int_py_str (z : Z) : py_int (py_str z) = Returns z.
Proof.
  unfold py_str.
  destruct z as [|p|p]; cbn [Z.to_int NilZero.string_of_int NilZero.string_of_uint];
    try reflexivity;
    pose proof (digits_of_positive p) as Hd;
    pose proof (no_space_in_digits (Pos.to_uint p)) as Hs;
    pose proof (DecimalPos.Unsigned.to_uint_nonnil p) as Hn;
    destruct (Pos.to_uint p) eqn:E; try (now elim Hn);
    cbn [NilEmpty.string_of_uint] in Hd, Hs;
    cbn [NilZero.string_of_uint NilEmpty.string_of_uint];
    unfold py_int;
    match goal with
    | |- context [lstrip ?t] => replace (lstrip t) with t by reflexivity
    end;
    try (rewrite (@rstrip_keeps "-" _ eq_refl Hs));
    try rewrite Hs;
    cbv beta iota; rewrite Hd; reflexivity.
Qed.

Lemma contains_append c a b :
  contains c (a ++ b) = contains c a || contains c b.
Proof.
  induction a as [|c' a IH]; simpl; [reflexivity|].
  now rewrite IH, orb_assoc.
Qed.

Lemma no_percent_in_digits (u : Decimal.uint) :
  contains "%" (NilEmpty.string_of_uint u) = false.
Proof. induction u; cbn [NilEmpty.string_of_uint contains]; auto. Qed.

Lemma no_percent_in_py_str (z : Z) : contains "%" (py_str z) = false.
Proof.
  unfold py_str.
  destruct z as [|p|p]; cbn [Z.to_int NilZero.string_of_int NilZero.string_of_uint];
    try reflexivity;
    pose proof (no_percent_in_digits (Pos.to_uint p)) as Hd;
    destruct (Pos.to_uint p); try reflexivity;
    cbn [NilZero.string_of_uint contains]; exact Hd.
Qed.

(** ** Writing and reading the schedule store *)

Lemma match_other_than_percent (c : ascii) :
  c <> "%"%char ->
  forall (A : Type) (a b : A),
    match c with
    | "%"%char => a
    | _ => b
    end = b.
Proof.
  intros Hne A a b.
  destruct c as [[|] [|] [|] [|] [|] [|] [|] [|]]; try reflexivity.
  now elim Hne.
Qed.

Lemma remove_escaped_percent_plain (s : string) :
  contains "%" s = false -> remove_escaped_percent s = s.
Proof.
  induction s as [|c r IH]; intros Hc; [reflexivity|].
  simpl in Hc. apply orb_false_iff in Hc as [Hc1 Hc2].
  assert (c <> "%"%char) as Hne by (intros ->; discriminate Hc1).
  simpl. rewrite (match_other_than_percent Hne). now rewrite IH.
Qed.

Lemma remove_references_plain (n : nat) :
  forall s, contains "%" s = false -> remove_references n s = s.
Proof.
  induction n as [|n IH]; intros s Hc; [reflexivity|].
  destruct s as [|c r]; [reflexivity|].
  simpl in Hc. apply orb_false_iff in Hc as [Hc1 Hc2].
  assert (c <> "%"%char) as Hne by (intros ->; discriminate Hc1).
  simpl. rewrite (match_other_than_percent Hne). now rewrite IH.
Qed.

(** Text without a percent sign is accepted as it is. *)
Lemma before_set_plain (value : string) :
  contains "%" value = false -> before_set value = Returns value.
Proof.
  intros Hc. unfold before_set.
  rewrite remove_escaped_percent_plain by assumption.
  rewrite remove_references_plain by assumption.
  now rewrite Hc.
Qed.

Lemma Dict_get_app {V : Type} (d e : Dict.t V) k :
  Dict.get (d ++ e)%list k
  = match Dict.get d k with
    | Some v => Some v
    | None => Dict.get e k
    end.
Proof.
  induction d as [|[k' v'] r IH]; simpl; [reflexivity|].
  now destruct (String.eqb k' k).
Qed.

Lemma key_is_not_empty (m : monitor) :
  String.eqb (get_monitor_config_key m) "" = false.
Proof.
  destruct (String.eqb_spec (get_monitor_config_key m) "") as [E|]; auto.
  assert (contains "_" (get_monitor_config_key m) = true) as Hc
      by (unfold get_monitor_config_key; apply contains_app).
  rewrite E in Hc. discriminate Hc.
Qed.

(** An assignment in the section of a stable key. *)
Lemma config_set_in_section (c : ConfigParser) (m : monitor) d opt value :
  Dict.get (sections c) (get_monitor_config_key m) = Some d ->
  contains "%" value = false ->
  config_set c (get_monitor_config_key m) opt value
  = Returns {| defaults := defaults c;
               sections := Dict.set (sections c) (get_monitor_config_key m)
                                    (Dict.set d (lower opt) value) |}.
Proof.
  intros Hd Hc. unfold config_set.
  assert ((if String.eqb value "" then Returns value else before_set value)
          = Returns value) as ->
      by (destruct (String.eqb value ""); auto using before_set_plain).
  now rewrite key_is_not_empty, key_is_not_default, Hd.
Qed.

(** The section that [save_monitor_config] writes to exists once the
    function has made sure of it. *)
Lemma section_made_sure (c : ConfigParser) (m : monitor) :
  exists d,
    Dict.get (sections (if config_contains c (get_monitor_config_key m)
                        then c else add_section c (get_monitor_config_key m)))
             (get_monitor_config_key m) = Some d.
Proof.
  unfold config_contains, has_section, Dict.mem.
  rewrite key_is_not_default. simpl.
  destruct (Dict.get (sections c) (get_monitor_config_key m)) as [d|] eqn:E.
  - eauto.
  - exists Dict.empty. unfold add_section; simpl.
    rewrite Dict_get_app, E. simpl. now rewrite String.eqb_refl.
Qed.

(** Reading an option of an existing section. *)
Lemma config_get_in_section (c : ConfigParser) section d opt fb :
  Dict.get (sections c) section = Some d ->
  config_get c section opt fb
  = match Dict.get (d ++ defaults c)%list (lower opt) with
    | None => match fb with
              | Some t => Returns t
              | None => Raises NoOptionError
              end
    | Some value => before_get (d ++ defaults c)%list value
    end.
Proof. intros Hd. unfold config_get, unify_values. now rewrite Hd. Qed.

Lemma convert_to_boolean_py_str_bool (b : bool) :
  convert_to_boolean (py_str_bool b) = Returns b.
Proof. now destruct b. Qed.

Lemma no_percent_in_py_str_bool (b : bool) : contains "%" (py_str_bool b) = false.
Proof. now destruct b. Qed.

(** What an assignment in the section of a stable key leaves alone. *)
Lemma config_set_frame (c c' : ConfigParser) (m : monitor) opt value :
  config_set c (get_monitor_config_key m) opt value = Returns c' ->
  defaults c' = defaults c
  /\ forall k, k <> get_monitor_config_key m ->
                Dict.get (sections c') k = Dict.get (sections c) k.
Proof.
  unfold config_set.
  destruct (if String.eqb value "" then Returns value else before_set value);
    [|discriminate].
  rewrite key_is_not_empty, key_is_not_default. simpl.
  destruct (Dict.get (sections c) (get_monitor_config_key m)); [|discriminate].
  intros E. injection E as <-. simpl. split; [reflexivity|].
  intros k Hk. apply Dict_get_set_other. congruence.
Qed.

Lemma set_options_frame (m : monitor) assignments :
  forall c,
    defaults (snd (set_options c (get_monitor_config_key m) assignments))
    = defaults c
    /\ forall k, k <> get_monitor_config_key m ->
                  Dict.get (sections (snd (set_options c (get_monitor_config_key m)
                                                       assignments))) k
                  = Dict.get (sections c) k.
Proof.
  induction assignments as [|[opt value] rest IH]; intros c; cbn [set_options].
  - simpl. auto.
  - destruct (config_set c (get_monitor_config_key m) opt value) as [c'|e] eqn:E.
    + destruct (@config_set_frame c c' m opt value E) as [Hd Hs].
      destruct (IH c') as [Hd' Hs']. split; [congruence|].
      intros k Hk. rewrite Hs' by assumption. now apply Hs.
    + simpl. auto.
Qed.

(** A run of assignments of texts without percent sign: it returns, and the
    section holds the options assigned in turn. *)
Lemma set_options_in_section (m : monitor) assignments :
  forall c d,
    Dict.get (sections c) (get_monitor_config_key m) = Some d ->
    Forall (fun a => contains "%" (snd a) = false) assignments ->
    fst (set_options c (get_monitor_config_key m) assignments) = Returns tt
    /\ Dict.get (sections (snd (set_options c (get_monitor_config_key m)
                                             assignments)))
                (get_monitor_config_key m)
       = Some (fold_left (fun d a => Dict.set d (lower (fst a)) (snd a))
                         assignments d).
Proof.
  induction assignments as [|[opt value] rest IH]; intros c d Hd Hall;
    cbn [set_options fold_left].
  - simpl. auto.
  - inversion Hall as [|? ? Hv Hrest]; subst. simpl in Hv.
    rewrite (@config_set_in_section c m d opt value Hd Hv).
    apply IH; [|assumption]. simpl. apply Dict_get_set_same.
Qed.

(** Loading looks at the defaults and at the section of the key only. *)
Lemma load_monitor_config_same (c c' : ConfigParser) (m : monitor) :
  defaults c' = defaults c ->
  Dict.get (sections c') (get_monitor_config_key m)
  = Dict.get (sections c) (get_monitor_config_key m) ->
  load_monitor_config c' m = load_monitor_config c m.
Proof.
  intros Hd Hs.
  unfold load_monitor_config, config_contains, has_section, Dict.mem,
    read_entry, config_getboolean, config_get, unify_values.
  now rewrite Hd, Hs.
Qed.

(** X1: an entry saved for a monitor is the entry loaded for it.  When the
    two time texts and the monitor's name hold no percent sign,
    [save_monitor_config] returns, and [load_monitor_config] on the parser it
    leaves returns the flag and the two texts that were saved, whatever the
    parser held before. *)
Theorem save_then_load (c : ConfigParser) (m : monitor) (enabled : bool)
    (start_text end_text : string) :
  contains "%" start_text = false ->
  contains "%" end_text = false ->
  contains "%" (Monitor.name m) = false ->
  fst (save_monitor_config c m enabled start_text end_text) = Returns tt
  /\ load_monitor_config
       (snd (save_monitor_config c m enabled start_text end_text)) m
     = Returns {| auto_enabled := enabled; start_time := start_text;
                  end_time := end_text |}.
Proof.
  intros Hs He Hn.
  assert (contains "%" (py_str (Monitor.width m) ++ "x" ++ py_str (Monitor.height m))
          = false) as Hr.
  { rewrite !contains_append, !no_percent_in_py_str. reflexivity. }
  unfold save_monitor_config.
  destruct (section_made_sure c m) as [d0 Hd0].
  match goal with
  | |- context [set_options ?c0 ?k ?l] =>
      destruct (@set_options_in_section m l c0 d0 Hd0) as [Hv Hsec];
      [ repeat constructor; simpl; auto using no_percent_in_py_str_bool
      | destruct (set_options c0 k l) as [r c5] ]
  end.
  simpl in Hv, Hsec. split; [exact Hv|]. simpl.
  unfold load_monitor_config, config_contains, has_section, Dict.mem.
  rewrite Hsec, orb_true_r.
  unfold read_entry, config_getboolean.
  rewrite !(fun opt fb => @config_get_in_section c5 _ _ opt fb Hsec), !Dict_get_app.
  change (lower "auto_enabled") with "auto_enabled".
  change (lower "start_time") with "start_time".
  change (lower "end_time") with "end_time".
  change (lower "monitor_name") with "monitor_name".
  change (lower "resolution") with "resolution".
  repeat (rewrite ?Dict_get_set_same;
          rewrite ?Dict_get_set_other by discriminate).
  rewrite !before_get_plain
    by auto using no_percent_in_py_str_bool.
  now rewrite convert_to_boolean_py_str_bool.
Qed.

Lemma save_then_load_witness :
  contains "%" "20:0:0" = false
  /\ contains "%" "6:0:0" = false
  /\ contains "%" (Monitor.name monitor_B) = false
  /\ load_monitor_config
       (snd (save_monitor_config Cases.config_office monitor_B true "20:0:0" "6:0:0"))
       monitor_B
     = Returns {| auto_enabled := true; start_time := "20:0:0";
                  end_time := "6:0:0" |}.
Proof.
  do 3 (split; [reflexivity|]).
  apply (save_then_load Cases.config_office monitor_B true "20:0:0" "6:0:0");
    reflexivity.
Defined.

(** X2: saving the entry of one monitor leaves the entry loaded for a
    monitor with another stable key as it was, also when the saving raises
    half-way. *)
Theorem save_leaves_other_keys (c : ConfigParser) (m m' : monitor)
    (enabled : bool) (start_text end_text : string) :
  get_monitor_config_key m' <> get_monitor_config_key m ->
  load_monitor_config
    (snd (save_monitor_config c m enabled start_text end_text)) m'
  = load_monitor_config c m'.
Proof.
  intros Hne. unfold save_monitor_config.
  match goal with
  | |- context [set_options ?c0 ?k ?l] =>
      destruct (@set_options_frame m l c0) as [Hd Hs];
      assert (defaults c0 = defaults c
              /\ Dict.get (sections c0) (get_monitor_config_key m')
                 = Dict.get (sections c) (get_monitor_config_key m')) as [Hd0 Hs0]
  end.
  { destruct (config_contains c (get_monitor_config_key m)); [auto|].
    unfold add_section; simpl. split; [reflexivity|].
    rewrite Dict_get_app.
    destruct (Dict.get (sections c) (get_monitor_config_key m')); [reflexivity|].
    simpl. destruct (String.eqb_spec (get_monitor_config_key m)
                                     (get_monitor_config_key m')); congruence. }
  apply load_monitor_config_same.
  - congruence.
  - rewrite Hs by assumption. exact Hs0.
Qed.

Lemma save_leaves_other_keys_witness :
  get_monitor_config_key monitor_A <> get_monitor_config_key monitor_B
  /\ load_monitor_config
       (snd (save_monitor_config Cases.config_office monitor_B true "50%" "6:0:0"))
       monitor_A
     = load_monitor_config Cases.config_office monitor_A.
Proof.
  split; [discriminate|].
  apply (save_leaves_other_keys Cases.config_office monitor_B monitor_A
           true "50%" "6:0:0").
  discriminate.
Defined.

(** X3: the detection interval that is saved is the one loaded.  Whatever
    integer the spin box holds -- zero and negative ones too, no range is
    checked -- [save_detection_interval] keeps it as the interval and stores
    it, and [load_config], reading the parser that was stored, finds that
    integer again. *)
Theorem interval_round_trip (c : ConfigParser) (interval n : Z) :
  snd (save_detection_interval c interval (TkVar (Returns n))) = n
  /\ snd (load_config
            (ReadOk (fst (save_detection_interval c interval (TkVar (Returns n))))))
     = n.
Proof.
  unfold save_detection_interval. cbn [int_get].
  set (c0 := if has_section c "SETTINGS" then c else add_section c "SETTINGS").
  assert (exists d, Dict.get (sections c0) "SETTINGS" = Some d) as [d Hd].
  { subst c0. unfold has_section, Dict.mem.
    destruct (Dict.get (sections c) "SETTINGS") as [d|] eqn:E; [eauto|].
    exists Dict.empty. unfold add_section; simpl.
    rewrite Dict_get_app, E. reflexivity. }
  assert (config_set c0 "SETTINGS" "detection_interval" (py_str n)
          = Returns {| defaults := defaults c0;
                       sections := Dict.set (sections c0) "SETTINGS"
                                     (Dict.set d "detection_interval" (py_str n)) |})
    as ->.
  { unfold config_set.
    assert ((if String.eqb (py_str n) "" then Returns (py_str n)
             else before_set (py_str n)) = Returns (py_str n)) as ->
        by (destruct (String.eqb (py_str n) "");
            auto using before_set_plain, no_percent_in_py_str).
    cbn [String.eqb Ascii.eqb Bool.eqb orb default_section].
    now rewrite Hd. }
  split; [reflexivity|].
  cbn [fst load_config].
  match goal with
  | |- context [has_section ?c1 _] =>
      assert (Dict.get (sections c1) "SETTINGS"
              = Some (Dict.set d "detection_interval" (py_str n))) as Hd1
        by (simpl; apply Dict_get_set_same);
      unfold has_section, Dict.mem, config_getint;
      rewrite (@config_get_in_section c1 "SETTINGS" _ "detection_interval" None Hd1);
      rewrite Hd1
  end.
  change (lower "detection_interval") with "detection_interval".
  rewrite Dict_get_app, Dict_get_set_same.
  rewrite before_get_plain by apply no_percent_in_py_str.
  now rewrite py_int_py_str.
Qed.

Section Timer.

Context {W : Type} `{Desktop W}.

(** A round of the timer with an interval that [time.sleep] refuses: the
    sleep after the tick raises, and so does the sleep of the handler. *)
Lemma timer_round_raises (st : self W) :
  detection_interval st < 0 \/ 9223372036 < detection_interval st ->
  fst (timer_round st)
  = Exc (if (detection_interval st <? -9223372036)
            || (9223372036 <? detection_interval st)
         then OverflowError else ValueError).
Proof.
  intros Hi. remember (timer_round st) as r eqn:Er.
  unfold timer_round, try_except, bind, get in Er. cbn beta iota in Er.
  destruct (check_auto_screen_off_run st) as [Hv (Hr & Hd & _)].
  destruct (check_auto_screen_off st) as [v st1]. simpl in Hv, Hr, Hd.
  subst v. rewrite sleep_refused in Er by lia. cbn beta iota in Er.
  rewrite sleep_refused in Er by lia. subst r. cbn [fst]. rewrite Hd.
  replace (detection_interval st * 1000 <? -9223372036000)
    with (detection_interval st <? -9223372036)
    by (destruct (Z.ltb_spec (detection_interval st) (-9223372036)),
          (Z.ltb_spec (detection_interval st * 1000) (-9223372036000));
        try reflexivity; lia).
  replace (9223372036000 <? detection_interval st * 1000)
    with (9223372036 <? detection_interval st)
    by (destruct (Z.ltb_spec 9223372036 (detection_interval st)),
          (Z.ltb_spec 9223372036000 (detection_interval st * 1000));
        try reflexivity; lia).
  reflexivity.
Qed.

(** The state query leaves everything as it is. *)
Lemma queries_is_monitor_on (m : monitor) :
  sound only_queries (is_monitor_on (W := W) m).
Proof.
  apply sound_is_monitor_on.
  - exact only_queries_refl.
  - exact only_queries_trans.
  - exact only_queries_log.
Qed.

(** What the state query answers, from the resolution, the saved
    geometries and the current mode. *)
Lemma is_monitor_on_run (m : monitor) (st : self W) :
  fst (is_monitor_on m st)
  = Val (match fst (get_device_name_by_monitor m st) with
         | Val (Some dn) =>
             if String.eqb dn "" then true
             else if has_saved st dn then false
             else match EnumDisplaySettings (world st) dn ENUM_CURRENT_SETTINGS with
                  | Returns current_settings =>
                      negb (PelsWidth current_settings =? 0)%N
                      && negb (PelsHeight current_settings =? 0)%N
                  | Raises _ => false
                  end
         | _ => true
         end).
Proof.
  destruct (get_device_name_by_monitor_returns m st) as (r & st' & E & Hq).
  remember (is_monitor_on m st) as v eqn:Ev.
  unfold is_monitor_on, try_except, bind in Ev. rewrite E in Ev.
  rewrite E. cbn [fst].
  destruct Hq as (Hw & Hs & _).
  destruct r as [dn|]; [|now subst v].
  destruct (String.eqb dn ""); [now subst v|].
  unfold get in Ev. cbn beta iota in Ev.
  assert (has_saved st' dn = has_saved st dn) as Hh
      by (unfold has_saved; now rewrite Hs).
  rewrite Hh in Ev.
  destruct (has_saved st dn); [now subst v|].
  unfold call_EnumDisplaySettings, bind, log, get, lift, ret, raise in Ev.
  cbn beta iota in Ev. cbn [world] in Ev. rewrite Hw in Ev.
  destruct (EnumDisplaySettings (world st) dn ENUM_CURRENT_SETTINGS) as [cs|];
    subst v; cbn [fst]; [|reflexivity].
  do 2 f_equal.
  - destruct (PelsWidth cs); reflexivity.
  - destruct (PelsHeight cs); reflexivity.
Qed.

(** The resolution answers the same after calls that only query. *)
Lemma resolution_stable (m : monitor) (st st' : self W) :
  only_queries st st' ->
  fst (get_device_name_by_monitor m st') = fst (get_device_name_by_monitor m st).
Proof.
  intros Hq. rewrite !get_device_name_by_monitor_value.
  destruct Hq as (Hw & Hs & Hrest). rewrite Hw.
  rewrite (find_same (fun d => device_matches st' m (DeviceName d))
                     (fun d => device_matches st m (DeviceName d))).
  - reflexivity.
  - intros d. apply device_matches_only_queries.
    unfold only_queries. auto.
Qed.

End Timer.

(** X4: a detection interval that [time.sleep] refuses ends the timer
    loop.  With the flag set and an interval that is negative or beyond
    9223372036 seconds, the first round of [timer_loop] leaves the loop with
    the exception of [time.sleep], raised once more in the handler: a
    [ValueError] for an interval from -9223372036 to -1, an [OverflowError]
    beyond 9223372036 in either direction.  The scheduler thread is gone and
    no later tick happens. *)
Theorem refused_interval_ends_timer (W : Type) (D : Desktop W)
    (rounds : nat) (st : self W) :
  auto_screen_timer_running st = true ->
  detection_interval st < 0 \/ 9223372036 < detection_interval st ->
  fst (timer_loop (S rounds) st)
  = Exc (if (detection_interval st <? -9223372036)
            || (9223372036 <? detection_interval st)
         then OverflowError else ValueError).
Proof.
  intros Hr Hi. cbn [timer_loop]. rewrite Hr. unfold bind.
  pose proof (timer_round_raises st Hi) as Hv.
  destruct (timer_round st) as [v st1]. simpl in Hv. now subst v.
Qed.

Lemma refused_interval_ends_timer_witness :
  auto_screen_timer_running Cases.hasty = true
  /\ (detection_interval Cases.hasty < 0
      \/ 9223372036 < detection_interval Cases.hasty)
  /\ fst (timer_loop 3 Cases.hasty) = Exc ValueError.
Proof.
  split; [reflexivity|]. split; [left; simpl; lia|].
  apply (refused_interval_ends_timer Sim.desktop_is_Desktop 2 Cases.hasty);
    [reflexivity | left; simpl; lia].
Defined.

(** X5: the state query is a query: [is_monitor_on] returns for every
    desktop and state, and leaves the desktop, the saved geometries and the
    widgets as they were; the calls it makes are queries. *)
Theorem is_monitor_on_is_a_query (W : Type) (D : Desktop W) (m : monitor)
    (st : self W) :
  (exists on, fst (is_monitor_on m st) = Val on)
  /\ only_queries st (snd (is_monitor_on m st)).
Proof.
  split.
  - rewrite is_monitor_on_run. eauto.
  - apply queries_is_monitor_on.
Qed.

(** X6: the scheduler records no zero-size geometry.  When the state query
    reports a monitor on and the monitor resolves to a device, the blanking
    that the tick then does for it saves a geometry of non-zero width and
    height for that device. *)
Theorem tick_records_nonzero_geometry (W : Type) (D : Desktop W) (m : monitor)
    (st : self W) (dn : string) :
  fst (is_monitor_on m st) = Val true ->
  fst (get_device_name_by_monitor m st) = Val (Some dn) ->
  dn <> "" ->
  match original_settings (snd (reconcile true m st)) with
  | Some d =>
      exists g, Dict.get d dn = Some g
                /\ Saved.width g <> 0%N /\ Saved.height g <> 0%N
  | None => False
  end.
Proof.
  intros Hon Hres Hne.
  pose proof (is_monitor_on_run m st) as Hrun.
  rewrite Hon, Hres in Hrun.
  assert (String.eqb dn "" = false) as Hn
      by (destruct (String.eqb_spec dn ""); congruence).
  rewrite Hn in Hrun.
  destruct (has_saved st dn); [discriminate Hrun|].
  destruct (EnumDisplaySettings (world st) dn ENUM_CURRENT_SETTINGS)
    as [cs|] eqn:Ecs; [|discriminate Hrun].
  injection Hrun as Hnz. symmetry in Hnz.
  apply andb_true_iff in Hnz as [Hw Hh].
  apply negb_true_iff, N.eqb_neq in Hw. apply negb_true_iff, N.eqb_neq in Hh.
  destruct (queries_is_monitor_on m st) as [_ Hq].
  unfold reconcile, bind.
  destruct (is_monitor_on m st) as [v st1]. simpl in Hon, Hq. subst v.
  pose proof (resolution_stable m Hq) as Hsame. rewrite Hres in Hsame.
  assert (EnumDisplaySettings (world st1) dn ENUM_CURRENT_SETTINGS = Returns cs)
    as Ecs1 by (destruct Hq as (-> & _); exact Ecs).
  pose proof (turn_off_screen_records_current_mode m st1 Hsame Hne Ecs1) as Hrec.
  destruct (original_settings (snd (turn_off_screen m st1))) as [d|]; [|exact Hrec].
  exists (geometry_of cs). auto.
Qed.

Lemma tick_records_nonzero_geometry_witness :
  match original_settings
          (snd (reconcile true monitor_B (Sim.controller evening [widget_A; widget_B])))
  with
  | Some d =>
      exists g, Dict.get d display2 = Some g
                /\ Saved.width g <> 0%N /\ Saved.height g <> 0%N
  | None => False
  end.
Proof.
  apply (tick_records_nonzero_geometry Sim.desktop_is_Desktop monitor_B
           (Sim.controller evening [widget_A; widget_B]) (dn := display2));
    [reflexivity | reflexivity | discriminate].
Defined.

(** X7: a blanking that was attempted counts as done.  When the monitor
    resolves to a device and the query of its current mode returns,
    [turn_off_screen] saves the geometry before it applies the zero-size
    mode; so whatever the desktop answers to the change -- also a refusal --
    the device has a saved geometry afterwards, and the state query reports
    the monitor off as long as it resolves to that device: the scheduler does
    not try the blanking again. *)
Theorem attempted_blank_counts_as_blanked (W : Type) (D : Desktop W)
    (m : monitor) (st : self W) (dn : string) (current_settings : DEVMODE) :
  fst (get_device_name_by_monitor m st) = Val (Some dn) ->
  dn <> "" ->
  EnumDisplaySettings (world st) dn ENUM_CURRENT_SETTINGS = Returns current_settings ->
  has_saved (snd (turn_off_screen m st)) dn = true
  /\ (fst (get_device_name_by_monitor m (snd (turn_off_screen m st)))
      = Val (Some dn) ->
      fst (is_monitor_on m (snd (turn_off_screen m st))) = Val false
      /\ reconcile true m (snd (turn_off_screen m st))
         = (Val tt, snd (is_monitor_on m (snd (turn_off_screen m st))))).
Proof.
  intros Hres Hne Hq.
  pose proof (turn_off_screen_records_current_mode m st Hres Hne Hq) as Hrec.
  assert (has_saved (snd (turn_off_screen m st)) dn = true) as Hs.
  { unfold has_saved, Dict.mem.
    destruct (original_settings (snd (turn_off_screen m st))); [|elim Hrec].
    now rewrite Hrec. }
  split; [exact Hs|].
  intros Hres'.
  assert (fst (is_monitor_on m (snd (turn_off_screen m st))) = Val false) as Hoff.
  { rewrite is_monitor_on_run, Hres', Hs.
    destruct (String.eqb_spec dn ""); congruence. }
  split; [exact Hoff|].
  unfold reconcile, bind.
  destruct (is_monitor_on m (snd (turn_off_screen m st))) as [v st2].
  simpl in Hoff |- *. now subst v.
Qed.

Lemma attempted_blank_counts_as_blanked_witness :
  existsb Examples.is_global_refresh
    (trace (snd (turn_off_screen monitor_B Cases.evening_refused))) = false
  /\ has_saved (snd (turn_off_screen monitor_B Cases.evening_refused)) display2 = true
  /\ fst (is_monitor_on monitor_B (snd (turn_off_screen monitor_B Cases.evening_refused)))
     = Val false.
Proof.
  split; [vm_compute; reflexivity|].
  destruct (attempted_blank_counts_as_blanked Sim.desktop_is_Desktop monitor_B
              Cases.evening_refused (dn := display2)
              (current_settings := Examples.mode 1920 0 1280 1024)
              eq_refl ltac:(discriminate) eq_refl) as [Hs Hoff].
  split; [exact Hs|].
  apply Hoff. vm_compute. reflexivity.
Defined.

(** ** Replaying the saved geometries *)

Section Replay.

Context {W : Type} `{Desktop W}.
Variable R : self W -> self W -> Prop.
Hypothesis R_refl : forall st, R st st.
Hypothesis R_trans : forall a b c, R a b -> R b c -> R a c.
Hypothesis R_log : forall e, sound R (log e).
Hypothesis R_world : forall w, sound R (set_world w).

Lemma sound_enumerate_names devices i : sound R (enumerate_names devices i).
Proof.
  revert i. induction devices as [|d rest IH]; intros i; simpl; sound_auto.
Qed.

Lemma sound_replay_saved available device_name original :
  sound R (replay_saved available device_name original).
Proof.
  pose proof (sound_call_EnumDisplaySettings R_refl R_trans
                (fun e _ => R_log e)).
  pose proof (sound_call_ChangeDisplaySettingsEx R_refl R_trans R_log R_world).
  unfold replay_saved. sound_auto.
Qed.

Lemma sound_replay_all available items n : sound R (replay_all available items n).
Proof.
  pose proof sound_replay_saved.
  revert n. induction items as [|[device_name original] rest IH]; intros n;
    simpl; sound_auto.
Qed.

End Replay.

Section RestoreAll.

Context {W : Type} `{Desktop W}.

(** [restore_all_screens] with nothing saved does nothing. *)
Lemma restore_all_screens_idle (st : self W) :
  original_settings st = None \/ original_settings st = Some [] ->
  restore_all_screens st = (Val tt, st).
Proof.
  intros [E|E]; unfold restore_all_screens, try_except, bind, get;
    cbn beta iota; now rewrite E.
Qed.

(** The part of [restore_all_screens] that replays, after a refresh that
    answered [False]. *)
Lemma replay_keeps_or_clears (st : self W) :
  forall r,
    r = (st1 <- get ;;
         available_devices <- enumerate_names (display_devices (world st1)) 0 ;;
         st2 <- get ;;
         restored_count <-
           replay_all available_devices
             (match original_settings st2 with Some d => d | None => [] end) 0 ;;
         if Nat.ltb 0 restored_count then clear_original_settings else ret tt) st ->
    fst r <> Fuel
    /\ (original_settings (snd r) = original_settings st
        \/ original_settings (snd r) = Some []).
Proof.
  intros r Er. unfold bind at 1 in Er. cbn [get] in Er. unfold bind at 1 in Er.
  destruct (sound_enumerate_names (@keeps_saved_refl W) (@keeps_saved_trans W)
              keeps_saved_log (display_devices (world st)) 0 st) as [Hf1 Hk1].
  destruct (enumerate_names (display_devices (world st)) 0 st)
    as [[names|e|] st1]; simpl in Hf1, Hk1;
    [|subst r; simpl; split; [discriminate | now left] | now elim Hf1].
  unfold bind at 1 in Er. cbn [get] in Er. unfold bind at 1 in Er.
  match type of Er with
  | context [replay_all ?a ?items ?n st1] =>
      destruct (sound_replay_all (@keeps_saved_refl W) (@keeps_saved_trans W)
                  keeps_saved_log keeps_saved_world a items n st1) as [Hf2 Hk2];
      destruct (replay_all a items n st1) as [[count|e|] st2]
  end; simpl in Hf2, Hk2;
    [|subst r; simpl; split; [discriminate | left; congruence] | now elim Hf2].
  unfold keeps_saved in Hk1, Hk2.
  destruct (Nat.ltb 0 count).
  - unfold clear_original_settings, bind, get in Er. cbn beta iota in Er.
    destruct (original_settings st2) as [d2|] eqn:E2; subst r; simpl;
      (split; [discriminate|]); [now right | left; congruence].
  - subst r; simpl. split; [discriminate | left; congruence].
Qed.

Lemma restore_all_screens_run (st : self W) :
  fst (restore_all_screens st) = Val tt
  /\ (original_settings (snd (restore_all_screens st)) = original_settings st
      \/ original_settings (snd (restore_all_screens st)) = Some []).
Proof.
  remember (restore_all_screens st) as r eqn:Er.
  unfold restore_all_screens, try_except in Er. unfold bind at 1 in Er.
  cbn [get] in Er.
  destruct (original_settings st) as [[|entry entries]|] eqn:Eo;
    try (subst r; simpl; split; [reflexivity | left; congruence]).
  unfold bind at 1 in Er.
  destruct (force_refresh_displays_returns st) as (b & st1 & E).
  destruct (keeps_saved_force_refresh_displays st) as [_ Hk].
  rewrite E in Er, Hk. unfold keeps_saved in Hk. simpl in Hk.
  destruct b.
  - unfold bind in Er. rewrite sleep_run in Er by lia.
    unfold clear_original_settings, bind, log, get, set_world,
      set_original_settings, ret, raise in Er.
    cbn in Er. rewrite Hk, Eo in Er. subst r. simpl.
    split; [reflexivity | now right].
  - match type of Er with
    | context [bind get ?k st1] =>
        destruct (@replay_keeps_or_clears st1 (bind get k st1) eq_refl) as [Hf Ho];
        destruct (bind get k st1) as [[[]|e|] st2]
    end; simpl in Hf, Ho; subst r; simpl; try (now elim Hf);
      (split; [reflexivity|]); rewrite <- Eo, <- Hk; exact Ho.
Qed.

Lemma keeps_widgets_restore_all_screens :
  sound keeps_widgets (restore_all_screens (W := W)).
Proof.
  pose proof (@keeps_widgets_refl W) as Hr.
  pose proof (@keeps_widgets_trans W) as Ht.
  pose proof (sound_force_refresh_displays Hr Ht
                (fun e _ => keeps_widgets_log e) keeps_widgets_log
                keeps_widgets_world).
  pose proof (sound_sleep Hr Ht keeps_widgets_log keeps_widgets_world).
  pose proof (sound_clear_original_settings Hr Ht keeps_widgets_saved).
  pose proof (sound_enumerate_names Hr Ht keeps_widgets_log).
  pose proof (sound_replay_all Hr Ht keeps_widgets_log keeps_widgets_world).
  unfold restore_all_screens. sound_auto.
Qed.

End RestoreAll.

(** X8: [restore_all_screens] always returns; with nothing saved it does
    nothing at all; otherwise the saved geometries are afterwards either all
    still there or all dropped, never a part of them; and, unlike
    [reset_displays], it leaves the widget lists alone. *)
Theorem restore_all_screens_keeps_or_clears (W : Type) (D : Desktop W)
    (st : self W) :
  fst (restore_all_screens st) = Val tt
  /\ (original_settings (snd (restore_all_screens st)) = original_settings st
      \/ original_settings (snd (restore_all_screens st)) = Some [])
  /\ keeps_widgets st (snd (restore_all_screens st))
  /\ (original_settings st = None \/ original_settings st = Some [] ->
      restore_all_screens st = (Val tt, st)).
Proof.
  destruct (restore_all_screens_run st) as [Hv Ho].
  repeat split; auto.
  - apply keeps_widgets_restore_all_screens.
  - apply keeps_widgets_restore_all_screens.
  - apply restore_all_screens_idle.
Qed.

Lemma restore_all_screens_keeps_or_clears_witness :
  original_settings (Sim.controller evening [widget_A]) = None
  /\ restore_all_screens (Sim.controller evening [widget_A])
     = (Val tt, Sim.controller evening [widget_A]).
Proof.
  split; [reflexivity|].
  apply (restore_all_screens_keeps_or_clears Sim.desktop_is_Desktop).
  now left.
Defined.

(** ** Monitor names from EDID *)

Lemma length_lstrip s : (String.length (lstrip s) <= String.length s)%nat.
Proof.
  induction s as [|c r IH]; simpl; [lia|].
  destruct (is_space c); simpl; lia.
Qed.

Lemma length_rstrip s : (String.length (rstrip s) <= String.length s)%nat.
Proof.
  induction s as [|c r IH]; simpl; [lia|].
  destruct (rstrip r); [destruct (is_space c)|]; simpl in *; lia.
Qed.

Lemma length_decode_ascii bs :
  (String.length (decode_ascii bs) <= List.length bs)%nat.
Proof.
  induction bs as [|b r IH]; simpl; [lia|].
  destruct (Byte.to_N b <? 128)%N; simpl; lia.
Qed.

Lemma length_rstrip_padding bs :
  (List.length (rstrip_padding bs) <= List.length bs)%nat.
Proof.
  induction bs as [|b r IH]; simpl; [lia|].
  destruct (rstrip_padding r); [destruct (is_padding b)|]; simpl in *; lia.
Qed.

Lemma length_slice {A : Type} (l : list A) i j :
  (List.length (slice l i j) <= j - i)%nat.
Proof. unfold slice. apply firstn_le_length. Qed.

(** What is left of a text after [lstrip] starts with no white space. *)
Lemma lstrip_head s :
  lstrip s = EmptyString
  \/ exists c r, lstrip s = String c r /\ is_space c = false.
Proof.
  induction s as [|c r IH]; simpl; [now left|].
  destruct (is_space c) eqn:E; [exact IH|].
  right. eauto.
Qed.

Lemma rstrip_head c r :
  is_space c = false -> exists r', rstrip (String c r) = String c r'.
Proof.
  intros Hc. simpl. rewrite Hc. destruct (rstrip r); eauto.
Qed.

Lemma rstrip_rstrip s : rstrip (rstrip s) = rstrip s.
Proof.
  induction s as [|c r IH]; [reflexivity|].
  change (rstrip (String c r))
    with (match rstrip r with
          | EmptyString => if is_space c then EmptyString else String c EmptyString
          | r' => String c r'
          end).
  destruct (rstrip r) as [|a b] eqn:E.
  - destruct (is_space c) eqn:Ec; [reflexivity|].
    simpl. now rewrite Ec.
  - change (rstrip (String c (String a b)))
      with (match rstrip (String a b) with
            | EmptyString => if is_space c then EmptyString else String c EmptyString
            | r' => String c r'
            end).
    now rewrite IH.
Qed.

(** [s.strip().strip() == s.strip()] *)
Lemma strip_strip s : strip (strip s) = strip s.
Proof.
  unfold strip.
  destruct (lstrip_head s) as [E|(c & r & E & Hc)]; rewrite E.
  - reflexivity.
  - destruct (@rstrip_head c r Hc) as [r' E'].
    rewrite E'. cbn [lstrip]. rewrite Hc. rewrite <- E'.
    apply rstrip_rstrip.
Qed.

Lemma in_lstrip c s :
  In c (list_ascii_of_string (lstrip s)) -> In c (list_ascii_of_string s).
Proof.
  induction s as [|a r IH]; simpl; [auto|].
  destruct (is_space a); simpl; auto.
Qed.

Lemma in_rstrip c s :
  In c (list_ascii_of_string (rstrip s)) -> In c (list_ascii_of_string s).
Proof.
  induction s as [|a r IH]; simpl; [auto|].
  destruct (rstrip r) as [|a' r']; [destruct (is_space a)|]; simpl in *;
    intuition.
Qed.

Lemma ascii_of_byte_value (b : Byte.byte) :
  nat_of_ascii (ascii_of_byte b) = N.to_nat (Byte.to_N b).
Proof. destruct b; reflexivity. Qed.

Lemma in_decode_ascii c bs :
  In c (list_ascii_of_string (decode_ascii bs)) -> (nat_of_ascii c < 128)%nat.
Proof.
  induction bs as [|b r IH]; simpl; [tauto|].
  destruct (N.ltb_spec (Byte.to_N b) 128); simpl; [|exact IH].
  intros [<-|Hin]; [|auto].
  rewrite ascii_of_byte_value. lia.
Qed.

Lemma first_descriptor_name_found edid_data offsets name :
  first_descriptor_name edid_data offsets = Some name ->
  exists i, In i offsets /\ descriptor_name edid_data i = Some name.
Proof.
  induction offsets as [|i rest IH]; simpl; [discriminate|].
  destruct (descriptor_name edid_data i) as [n|] eqn:E.
  - intros [= <-]. eauto.
  - intros Hn. destruct (IH Hn) as (j & Hj & Ej). eauto.
Qed.

(** X9: the monitor name read from an EDID.  The parser answers a name only
    for data of at least 128 bytes, and the name it answers is not empty, at
    most 13 characters long, made of ASCII characters only, and has no white
    space at either end. *)
Theorem edid_name_is_clean (edid_data : list Byte.byte) (name : string) :
  parse_edid_monitor_name edid_data = Some name ->
  (128 <= List.length edid_data)%nat
  /\ name <> ""
  /\ (String.length name <= 13)%nat
  /\ strip name = name
  /\ forall c, In c (list_ascii_of_string name) -> (nat_of_ascii c < 128)%nat.
Proof.
  unfold parse_edid_monitor_name.
  destruct (Nat.ltb_spec (List.length edid_data) 128) as [|Hlen]; [discriminate|].
  intros Hn. split; [exact Hlen|].
  destruct (@first_descriptor_name_found _ _ _ Hn) as (i & _ & Hi).
  unfold descriptor_name in Hi.
  destruct (Nat.ltb (i + 17) (List.length edid_data)); [|discriminate].
  destruct (nth_error edid_data (i + 3)) as [tag|]; [|discriminate].
  destruct (Byte.to_N tag =? 252)%N; [|discriminate].
  set (raw := decode_ascii (rstrip_padding (slice edid_data (i + 5) (i + 18)))) in *.
  destruct (String.eqb_spec (strip raw) "") as [|Hne]; [discriminate|].
  injection Hi as <-.
  split; [exact Hne|]. split; [|split].
  - unfold strip.
    pose proof (length_rstrip (lstrip raw)). pose proof (length_lstrip raw).
    pose proof (length_decode_ascii
                  (rstrip_padding (slice edid_data (i + 5) (i + 18)))).
    pose proof (length_rstrip_padding (slice edid_data (i + 5) (i + 18))).
    pose proof (length_slice edid_data (i + 5) (i + 18)).
    fold raw in H1. lia.
  - apply strip_strip.
  - intros c Hc. unfold strip in Hc.
    apply in_rstrip, in_lstrip in Hc. now apply in_decode_ascii in Hc.
Qed.

Lemma edid_name_is_clean_witness :
  parse_edid_monitor_name Cases.edid_dell = Some "DELL U2415"
  /\ (128 <= List.length Cases.edid_dell)%nat
  /\ strip "DELL U2415" = "DELL U2415".
Proof.
  split; [reflexivity|].
  destruct (edid_name_is_clean Cases.edid_dell eq_refl) as (Hl & _ & _ & Hs & _).
  split; [exact Hl | exact Hs].
Defined.

(** ** The list of monitors *)

Lemma screen_info_from_nth monitors names :
  forall i k m,
    nth_error (screen_info_from i monitors names) k = Some m ->
    Monitor.id m = Z.of_nat (i + k) + 1
    /\ exists mon,
        nth_error monitors k = Some mon
        /\ Monitor.x m = Screen.x mon /\ Monitor.y m = Screen.y mon
        /\ Monitor.width m = Screen.width mon
        /\ Monitor.height m = Screen.height mon
        /\ Monitor.is_primary m = Screen.is_primary mon.
Proof.
  induction monitors as [|mon rest IH]; intros i k m; simpl.
  - destruct k; discriminate.
  - destruct k as [|k]; simpl.
    + intros [= <-]. simpl. rewrite Nat.add_0_r. split; [reflexivity|].
      exists mon. auto 10.
    + intros Hm. destruct (@IH (S i) k m Hm) as [Hid Hmon].
      split; [|exact Hmon]. rewrite Hid. f_equal. lia.
Qed.

Lemma length_screen_info_from monitors names :
  forall i, List.length (screen_info_from i monitors names) = List.length monitors.
Proof. induction monitors as [|mon rest IH]; intros i; simpl; auto. Qed.

(** X10: the monitors are numbered by position.  [get_screen_info] builds
    one record per monitor, in order, with the geometry reported for it and
    the identifier [position + 1]; hence, for the record at position [k], a
    resolution that finds no device of matching geometry answers the name of
    the display device at index [k], and nothing when there is none. *)
Theorem screen_info_indexes_devices (monitors : list Screen.t)
    (names : list string) (k : nat) (m : monitor) :
  nth_error (screen_info monitors names) k = Some m ->
  List.length (screen_info monitors names) = List.length monitors
  /\ Monitor.id m = Z.of_nat k + 1
  /\ (exists mon,
         nth_error monitors k = Some mon
         /\ Monitor.x m = Screen.x mon /\ Monitor.y m = Screen.y mon
         /\ Monitor.width m = Screen.width mon
         /\ Monitor.height m = Screen.height mon
         /\ Monitor.is_primary m = Screen.is_primary mon)
  /\ forall (W : Type) (D : Desktop W) (st : self W),
      find (fun d => device_matches st m (DeviceName d))
           (display_devices (world st)) = None ->
      fst (get_device_name_by_monitor m st)
      = Val (option_map DeviceName (nth_error (display_devices (world st)) k)).
Proof.
  intros Hm. unfold screen_info in *.
  destruct (@screen_info_from_nth _ _ _ _ _ Hm) as [Hid Hmon]. simpl in Hid.
  split; [apply length_screen_info_from|]. split; [exact Hid|].
  split; [exact Hmon|].
  intros W D st Hnone.
  rewrite get_device_name_by_monitor_value, Hnone.
  unfold EnumDisplayDevices. rewrite Hid.
  replace (Z.of_nat k + 1 - 1) with (Z.of_nat k) by lia.
  assert ((Z.of_nat k <? 0) = false) as -> by (apply Z.ltb_ge; lia).
  rewrite Nat2Z.id.
  now destruct (nth_error (display_devices (world st)) k).
Qed.

Lemma screen_info_indexes_devices_witness :
  exists m,
    nth_error (screen_info [Cases.screen_left; Cases.screen_main] ["HP L1950"]) 1
    = Some m
    /\ Monitor.id m = 2.
Proof.
  eexists. split; [reflexivity|].
  apply (screen_info_indexes_devices
           [Cases.screen_left; Cases.screen_main] ["HP L1950"] 1 eq_refl).
Defined.

(** ** The preview's crop *)

Lemma fold_min_le (l : list Z) :
  forall a x, x = a \/ In x l -> fold_left Z.min l a <= x.
Proof.
  induction l as [|b r IH]; intros a x Hx; simpl.
  - destruct Hx as [Hx|[]]. lia.
  - pose proof (IH (Z.min a b) (Z.min a b) (or_introl eq_refl)) as Hm.
    destruct Hx as [Hx|[Hx|Hin]]; [lia | lia |].
    apply IH. now right.
Qed.

Lemma fold_max_ge (l : list Z) :
  forall a x, x = a \/ In x l -> x <= fold_left Z.max l a.
Proof.
  induction l as [|b r IH]; intros a x Hx; simpl.
  - destruct Hx as [Hx|[]]. lia.
  - pose proof (IH (Z.max a b) (Z.max a b) (or_introl eq_refl)) as Hm.
    destruct Hx as [Hx|[Hx|Hin]]; [lia | lia |].
    apply IH. now right.
Qed.

Lemma py_min_le {A : Type} (f : A -> Z) (l : list A) (a : A) :
  In a l -> exists v, py_min (map f l) = Returns v /\ v <= f a.
Proof.
  destruct l as [|b r]; [intros []|]. intros Hin. simpl.
  eexists. split; [reflexivity|]. apply fold_min_le.
  destruct Hin as [->|Hin]; [now left | right; now apply in_map].
Qed.

Lemma py_max_ge {A : Type} (f : A -> Z) (l : list A) (a : A) :
  In a l -> exists v, py_max (map f l) = Returns v /\ f a <= v.
Proof.
  destruct l as [|b r]; [intros []|]. intros Hin. simpl.
  eexists. split; [reflexivity|]. apply fold_max_ge.
  destruct Hin as [->|Hin]; [now left | right; now apply in_map].
Qed.

(** X11: the preview shows the monitor.  For a monitor of the list, the box
    cropped out of a grab of the whole bounding box is the monitor's own
    rectangle moved to the grab's origin, also with negative coordinates:
    the clamping changes nothing and the box lies inside the grab. *)
Theorem crop_is_the_monitor (monitors : list monitor) (m : monitor) :
  In m monitors ->
  exists all_left all_top all_right all_bottom,
    bounding_box monitors = Returns (all_left, all_top, all_right, all_bottom)
    /\ crop_box monitors m (all_right - all_left) (all_bottom - all_top)
       = Returns (Monitor.x m - all_left, Monitor.y m - all_top,
                  Monitor.x m - all_left + Monitor.width m,
                  Monitor.y m - all_top + Monitor.height m)
    /\ 0 <= Monitor.x m - all_left
    /\ 0 <= Monitor.y m - all_top
    /\ Monitor.x m - all_left + Monitor.width m <= all_right - all_left
    /\ Monitor.y m - all_top + Monitor.height m <= all_bottom - all_top.
Proof.
  intros Hin.
  destruct (py_min_le Monitor.x monitors m Hin) as (l & El & Hl).
  destruct (py_min_le Monitor.y monitors m Hin) as (t & Et & Ht).
  destruct (py_max_ge (fun m => Monitor.x m + Monitor.width m) monitors m Hin)
    as (r & Er & Hr).
  destruct (py_max_ge (fun m => Monitor.y m + Monitor.height m) monitors m Hin)
    as (b & Eb & Hb).
  exists l, t, r, b.
  assert (bounding_box monitors = Returns (l, t, r, b)) as Ebox
      by (unfold bounding_box; now rewrite El, Et, Er, Eb).
  split; [exact Ebox|].
  unfold crop_box. rewrite Ebox.
  split; [|lia].
  rewrite !Z.max_r, !Z.min_r by lia. reflexivity.
Qed.

Lemma crop_is_the_monitor_witness :
  exists all_left all_top all_right all_bottom,
    bounding_box (screen_info [Cases.screen_left; Cases.screen_main] [])
    = Returns (all_left, all_top, all_right, all_bottom)
    /\ all_left = -1280.
Proof.
  destruct (@crop_is_the_monitor
              (screen_info [Cases.screen_left; Cases.screen_main] [])
              (nth 1 (screen_info [Cases.screen_left; Cases.screen_main] [])
                   monitor_A))
    as (l & t & r & b & Ebox & _).
  - right. now left.
  - exists l, t, r, b. split; [exact Ebox|].
    vm_compute in Ebox. now injection Ebox as <- _ _ _.
Defined.

(** ** The widget list under the loop *)

Section Aliasing.

Context {W : Type} `{Desktop W}.

(** [refresh_screens] empties the list object that [self.preview_widgets]
    refers to when it starts, however its Tk part ends. *)
Lemma refresh_screens_clears (st : self W) (loc : nat) :
  preview_widgets st = Some loc ->
  (loc < List.length (lists st))%nat ->
  list_at (snd (refresh_screens st)) loc = [].
Proof.
  intros Hp Hloc.
  unfold refresh_screens, bind, get, clear_list, call_rebuild_ui, log,
    set_world, rebind_preview_widgets, lift, ret, raise.
  cbn beta iota. rewrite Hp. cbn.
  destruct (fst (rebuild_ui (world st))) as [e|built [[]|e]];
    unfold list_at; cbn;
    rewrite ?app_nth1 by (rewrite length_replace_nth; assumption);
    now apply nth_replace_nth_same.
Qed.

Lemma keeps_widgets_force_refresh_displays :
  sound keeps_widgets (force_refresh_displays (W := W)).
Proof.
  apply sound_force_refresh_displays.
  - exact keeps_widgets_refl.
  - exact keeps_widgets_trans.
  - intros e _. apply keeps_widgets_log.
  - exact keeps_widgets_log.
  - exact keeps_widgets_world.
Qed.

Lemma reset_displays_clears (st : self W) (loc : nat) :
  preview_widgets st = Some loc ->
  (loc < List.length (lists st))%nat ->
  fst (force_refresh_displays st) = Val true ->
  list_at (snd (reset_displays st)) loc = [].
Proof.
  intros Hp Hloc Hok.
  destruct (keeps_widgets_force_refresh_displays st) as [_ [Hl Hpw]].
  remember (reset_displays st) as r eqn:Er.
  unfold reset_displays, try_except, bind in Er.
  destruct (force_refresh_displays st) as [v st1]. simpl in Hok, Hl, Hpw.
  subst v. unfold bind in Er. rewrite sleep_run in Er by lia.
  unfold clear_original_settings, bind, log, get, set_world,
    set_original_settings, ret, raise in Er.
  cbn -[refresh_screens] in Er.
  destruct (original_settings st1) as [d|];
    cbn -[refresh_screens] in Er;
    match type of Er with
    | context [refresh_screens ?s] =>
        assert (list_at (snd (refresh_screens s)) loc = []) as Hc
          by (apply refresh_screens_clears; simpl;
              [rewrite Hpw; exact Hp | rewrite Hl; exact Hloc]);
        destruct (refresh_screens s) as [[[]|e|] st3]
    end; subst r; exact Hc.
Qed.

Lemma for_widgets_on_empty fuel loc idx now (st : self W) :
  list_at st loc = [] -> for_widgets fuel loc idx now st = (Val tt, st).
Proof.
  intros Hn. destruct fuel; cbn [for_widgets]; rewrite Hn;
    destruct idx; reflexivity.
Qed.

End Aliasing.

(** X12: a restore ends the tick.  The loop of the tick runs over the list
    object of [self.preview_widgets], and [reset_displays], once its refresh
    has answered [True], empties that very object in [refresh_screens]; so
    after it the list under the loop is empty and the loop ends there: the
    widgets that come after the restored monitor are not looked at in this
    tick. *)
Theorem restore_ends_the_loop (W : Type) (D : Desktop W) (st : self W)
    (loc : nat) :
  preview_widgets st = Some loc ->
  (loc < List.length (lists st))%nat ->
  fst (force_refresh_displays st) = Val true ->
  list_at (snd (reset_displays st)) loc = []
  /\ forall fuel idx now,
      for_widgets fuel loc idx now (snd (reset_displays st))
      = (Val tt, snd (reset_displays st)).
Proof.
  intros Hp Hloc Hok.
  pose proof (reset_displays_clears st Hp Hloc Hok) as Hc.
  split; [exact Hc|].
  intros fuel idx now. now apply for_widgets_on_empty.
Qed.

Lemma restore_ends_the_loop_witness :
  list_at morning 0 = [widget_A; widget_B]
  /\ list_at (snd (reset_displays morning)) 0 = [].
Proof.
  split; [reflexivity|].
  apply (restore_ends_the_loop Sim.desktop_is_Desktop morning (loc := 0%nat));
    [reflexivity | simpl; lia | vm_compute; reflexivity].
Defined.
